(** * Smart Garbage Segregation: the FastAPI backend, embedded and verified

    The development follows the two source files.

    - [utils.py]: the label table [LABELS], [RECYCLABLE_CATEGORIES],
      [preprocess], [load_model] and [classify_recyclable].
    - [main.py]: the process-wide [model] variable, the startup routine
      [load_model_on_startup] and the three handlers [read_root],
      [predict] and [health_check].

    Python values are modelled as the code has them: [str] as a byte string
    holding UTF-8 text, [uint8] samples as [byte], [float64] as the
    primitive binary64 floats, the [dict] [LABELS] as a finite map, raised
    exceptions as the [Raise] branch of an outcome.  The interpreter and the
    third-party libraries (CPython's Unicode tables, Pillow's codecs and
    resampling kernels, the Keras model, the upload object) are the fields
    of a record [Runtime] over which every result is quantified. *)

From stdpp Require Import base option list gmap strings.
From Stdlib Require Import ZArith Lia Bool Ascii Floats DecimalString.
From Stdlib.Strings Require Import Byte.

Local Open Scope Z_scope.
Local Open Scope string_scope.

(** ** Python exceptions *)

Module Py.

(** The exception classes the program can meet, with their place in the
    class hierarchy of CPython, Pillow, Starlette and asyncio. *)
Inductive pyclass : Type :=
| BaseException
| Exception
| KeyboardInterrupt
| SystemExit
| GeneratorExit
| CancelledError
| OSError
| FileNotFoundError
| IsADirectoryError
| PermissionError
| UnidentifiedImageError
| LookupError
| KeyError
| IndexError
| ValueError
| UnicodeDecodeError
| AttributeError
| TypeError
| MemoryError
| RuntimeError
| HTTPException
| OtherException (name : string).

(** Direct base class ([__base__]); [BaseException] is the root. *)
Definition base (c : pyclass) : option pyclass :=
  match c with
  | BaseException => None
  | Exception | KeyboardInterrupt | SystemExit | GeneratorExit
  | CancelledError => Some BaseException
  | OSError | LookupError | ValueError | AttributeError | TypeError
  | MemoryError | RuntimeError | HTTPException | OtherException _ =>
      Some Exception
  | FileNotFoundError | IsADirectoryError | PermissionError
  | UnidentifiedImageError => Some OSError
  | KeyError | IndexError => Some LookupError
  | UnicodeDecodeError => Some ValueError
  end.

#[global] Instance pyclass_eq_dec : EqDecision pyclass.
Proof. solve_decision. Defined.

(** The hierarchy above is four levels deep, so four steps reach the root. *)
Fixpoint issubclass_upto (depth : nat) (c d : pyclass) : bool :=
  if decide (c = d) then true
  else match depth with
       | O => false
       | S depth' =>
           match base c with
           | Some b => issubclass_upto depth' b d
           | None => false
           end
       end.

Definition issubclass : pyclass -> pyclass -> bool := issubclass_upto 4.

(** A raised exception object: its class and what [str(e)] gives; an
    [HTTPException] carries [status_code] and [detail]. *)
Inductive exn : Type :=
| Exc (cls : pyclass) (message : string)
| HTTPExc (status_code : Z) (detail : string).

Definition class_of (e : exn) : pyclass :=
  match e with
  | Exc c _ => c
  | HTTPExc _ _ => HTTPException
  end.

Definition isinstance (e : exn) (c : pyclass) : bool :=
  issubclass (class_of e) c.

Definition str_of_Z (z : Z) : string := NilZero.string_of_int (Z.to_int z).

(** [str(e)]; Starlette's [HTTPException.__str__] is
    [f"{status_code}: {detail}"]. *)
Definition str (e : exn) : string :=
  match e with
  | Exc _ m => m
  | HTTPExc sc d => str_of_Z sc +:+ ": " +:+ d
  end.

(** Result of evaluating a Python expression. *)
Inductive outcome (A : Type) : Type :=
| Return (a : A)
| Raise (e : exn).
Arguments Return {A} a.
Arguments Raise {A} e.

Definition obind {A B} (o : outcome A) (k : A -> outcome B) : outcome B :=
  match o with
  | Return a => k a
  | Raise e => Raise e
  end.

(** Arguments that reach a function are arbitrary objects.  Three kinds are
    told apart: [str], and two kinds without a [lower] method.  The list is
    a sample, not the whole of Python: nothing is stated about objects of
    other classes. *)
Inductive object : Type :=
| PyStr (s : string)
| PyInt (z : Z)
| PyNone.

End Py.
Export Py.

#[global] Instance outcome_ret : MRet outcome := @Return.
#[global] Instance outcome_bind : MBind outcome := fun A B k o => obind o k.

(** ** [str.lower]

    CPython lowers an all-ASCII string character by character and sends
    every other string through the Unicode case mapping, which is a table
    of the interpreter ([unicode_lower] of the runtime). *)

Definition is_ascii_char (c : ascii) : bool := (N_of_ascii c <? 128)%N.

Definition ascii_tolower (c : ascii) : ascii :=
  let n := N_of_ascii c in
  if ((65 <=? n) && (n <=? 90))%N then ascii_of_N (n + 32) else c.

Fixpoint str_map (f : ascii -> ascii) (s : string) : string :=
  match s with
  | EmptyString => EmptyString
  | String c s' => String (f c) (str_map f s')
  end.

Fixpoint str_forall (p : ascii -> bool) (s : string) : bool :=
  match s with
  | EmptyString => true
  | String c s' => p c && str_forall p s'
  end.

Definition is_ascii (s : string) : bool := str_forall is_ascii_char s.

Definition str_lower (unicode_lower : string -> string) (s : string) : string :=
  if is_ascii s then str_map ascii_tolower s else unicode_lower s.

(** [x in l] for a list of strings: equality with some element. *)
Definition str_in (x : string) (l : list string) : bool :=
  existsb (String.eqb x) l.

(** ** Reading text: strict UTF-8 and universal newlines

    [Utf8.error] follows CPython's decoder: it walks the bytes and stops at
    the first ill-formed sequence, reporting where it starts, where the
    rejected part ends and why, as [UnicodeDecodeError] does. *)

Module Utf8.

Inductive reason : Type := InvalidStart | InvalidContinuation | UnexpectedEnd.

Record decode_error : Type := mk_decode_error {
  bad_byte : ascii;      (* the byte at [err_start] *)
  err_start : nat;
  err_end : nat;         (* exclusive *)
  err_reason : reason
}.

Definition is_continuation (c : ascii) : bool :=
  let n := N_of_ascii c in ((128 <=? n) && (n <=? 191))%N.

(** Second bytes excluded after a given lead byte: overlong forms,
    surrogates, and code points above U+10FFFF. *)
Definition excluded_second (lead second : ascii) : bool :=
  let ch := N_of_ascii lead in
  let ch2 := N_of_ascii second in
  ((ch =? 224) && (ch2 <? 160) || (ch =? 237) && (160 <=? ch2)
   || (ch =? 240) && (ch2 <? 144) || (ch =? 244) && (144 <=? ch2))%N.

Fixpoint error_from (pos : nat) (s : string) : option decode_error :=
  match s with
  | EmptyString => None
  | String c s1 =>
      let ch := N_of_ascii c in
      let fail len why := Some (mk_decode_error c pos (pos + len) why) in
      if (ch <? 128)%N then error_from (S pos) s1
      else if (ch <? 194)%N then fail 1%nat InvalidStart
      else if (ch <? 224)%N then
        match s1 with
        | EmptyString => fail 1%nat UnexpectedEnd
        | String c2 s2 =>
            if is_continuation c2 then error_from (pos + 2) s2
            else fail 1%nat InvalidContinuation
        end
      else if (ch <? 240)%N then
        match s1 with
        | EmptyString => fail 1%nat UnexpectedEnd
        | String c2 s2 =>
            if negb (is_continuation c2) || excluded_second c c2
            then fail 1%nat InvalidContinuation
            else match s2 with
                 | EmptyString => fail 2%nat UnexpectedEnd
                 | String c3 s3 =>
                     if is_continuation c3 then error_from (pos + 3) s3
                     else fail 2%nat InvalidContinuation
                 end
        end
      else if (ch <? 245)%N then
        match s1 with
        | EmptyString => fail 1%nat UnexpectedEnd
        | String c2 s2 =>
            if negb (is_continuation c2) || excluded_second c c2
            then fail 1%nat InvalidContinuation
            else match s2 with
                 | EmptyString => fail 2%nat UnexpectedEnd
                 | String c3 s3 =>
                     if negb (is_continuation c3)
                     then fail 2%nat InvalidContinuation
                     else match s3 with
                          | EmptyString => fail 3%nat UnexpectedEnd
                          | String c4 s4 =>
                              if is_continuation c4
                              then error_from (pos + 4) s4
                              else fail 3%nat InvalidContinuation
                          end
                 end
        end
      else fail 1%nat InvalidStart
  end.

Definition error (s : string) : option decode_error := error_from 0 s.

Definition hex_digit (n : N) : ascii :=
  if (n <? 10)%N then ascii_of_N (48 + n) else ascii_of_N (87 + n).

(** [%02x] of a byte. *)
Definition hex2 (c : ascii) : string :=
  let n := N_of_ascii c in
  String (hex_digit (n / 16)) (String (hex_digit (n mod 16)) EmptyString).

Definition reason_text (r : reason) : string :=
  match r with
  | InvalidStart => "invalid start byte"
  | InvalidContinuation => "invalid continuation byte"
  | UnexpectedEnd => "unexpected end of data"
  end.

(** [str] of the [UnicodeDecodeError]. *)
Definition message (e : decode_error) : string :=
  if decide (err_end e = S (err_start e))
  then "'utf-8' codec can't decode byte 0x" +:+ hex2 (bad_byte e)
       +:+ " in position " +:+ str_of_Z (Z.of_nat (err_start e))
       +:+ ": " +:+ reason_text (err_reason e)
  else "'utf-8' codec can't decode bytes in position "
       +:+ str_of_Z (Z.of_nat (err_start e)) +:+ "-"
       +:+ str_of_Z (Z.of_nat (err_end e - 1))
       +:+ ": " +:+ reason_text (err_reason e).

End Utf8.

(** Text mode with the default [newline=None]: a carriage return followed
    by a line feed, and a lone carriage return, are read as one line
    feed. *)
Fixpoint universal_newlines (s : string) : string :=
  match s with
  | EmptyString => EmptyString
  | String c s1 =>
      if (N_of_ascii c =? 13)%N then
        match s1 with
        | String c2 s2 =>
            if (N_of_ascii c2 =? 10)%N
            then String (ascii_of_N 10) (universal_newlines s2)
            else String (ascii_of_N 10) (universal_newlines s1)
        | EmptyString => String (ascii_of_N 10) EmptyString
        end
      else String c (universal_newlines s1)
  end.

(** ** utils.py: tables *)

Definition LABELS : gmap Z string :=
  <[0 := "cardboard"]> (<[1 := "glass"]> (<[2 := "metal"]>
  (<[3 := "paper"]> (<[4 := "plastic"]> (<[5 := "trash"]> ∅))))).

Definition RECYCLABLE_CATEGORIES : list string :=
  ["cardboard"; "glass"; "metal"; "paper"; "plastic"].

Definition OTHER_CATEGORIES : list string := ["trash"].

(** ** utils.py: [classify_recyclable]

    [predicted_class.lower()] is an attribute lookup on whatever object is
    passed: only a [str] has the method. *)

Definition method_lower (unicode_lower : string -> string) (o : object)
  : outcome string :=
  match o with
  | PyStr s => Return (str_lower unicode_lower s)
  | PyInt _ => Raise (Exc AttributeError "'int' object has no attribute 'lower'")
  | PyNone =>
      Raise (Exc AttributeError "'NoneType' object has no attribute 'lower'")
  end.

Definition classify_recyclable (unicode_lower : string -> string)
    (predicted_class : object) : outcome (string * Z) :=
  lowered ← method_lower unicode_lower predicted_class;
  if str_in lowered RECYCLABLE_CATEGORIES
  then Return ("Recyclable", 90)
  else Return ("Other", 0).

(** ** binary64 arithmetic used by numpy

    numpy compares and divides [float64] values as IEEE 754 prescribes;
    these are the primitive floats.  [float32] values, which Keras
    returns, convert to [float64] without rounding, so one type serves. *)

Module F64.
Local Open Scope float_scope.

Definition of_uint8 (b : byte) : float :=
  PrimFloat.of_uint63 (Uint63.of_Z (Z.of_N (Byte.to_N b))).

(** Membership in the closed interval [0, 1]. *)
Definition in_unit_interval (x : float) : bool := (0 <=? x) && (x <=? 1).

(** [x] is the value [n / 255.0] for some integer [n] in [0, 255]. *)
Definition is_uint8_over_255 (x : float) : Prop :=
  exists b : byte, x = of_uint8 b / 255.

End F64.

(** ** numpy arrays: a shape and the elements in row-major order *)

Record ndarray (A : Type) : Type := mk_ndarray {
  nd_shape : list nat;
  nd_data : list A
}.
Arguments mk_ndarray {A} _ _.
Arguments nd_shape {A} _.
Arguments nd_data {A} _.

Definition nd_size (shape : list nat) : nat := foldr Nat.mul 1%nat shape.

(** The buffer holds exactly as many elements as the shape announces. *)
Definition nd_wf {A} (a : ndarray A) : Prop :=
  length (nd_data a) = nd_size (nd_shape a).

(** Elementwise operation ([a / 255.0] is [nd_map (fun x => x / 255.0) a]). *)
Definition nd_map {A B} (f : A -> B) (a : ndarray A) : ndarray B :=
  mk_ndarray (nd_shape a) (f <$> nd_data a).

(** [np.expand_dims(a, axis=0)]. *)
Definition np_expand_dims0 {A} (a : ndarray A) : ndarray A :=
  mk_ndarray (1%nat :: nd_shape a) (nd_data a).

(** [a[0]]: the first block along the leading axis. *)
Definition nd_getitem0 {A} (a : ndarray A) : outcome (ndarray A) :=
  match nd_shape a with
  | [] =>
      Raise (Exc IndexError
        "too many indices for array: array is 0-dimensional, but 1 were indexed")
  | O :: _ =>
      Raise (Exc IndexError "index 0 is out of bounds for axis 0 with size 0")
  | S _ :: rest => Return (mk_ndarray rest (take (nd_size rest) (nd_data a)))
  end.

(** ** Pillow images *)

(** The modes whose bands are 8-bit samples. *)
Inductive Mode : Type :=
  L | LA | P | RGB | RGBA | CMYK | YCbCr | LAB | HSV.

#[global] Instance Mode_eq_dec : EqDecision Mode.
Proof. solve_decision. Defined.

(** [len(ImageMode.getmode(mode).bands)]. *)
Definition bands (m : Mode) : nat :=
  match m with
  | L | P => 1
  | LA => 2
  | RGB | YCbCr | LAB | HSV => 3
  | RGBA | CMYK => 4
  end%nat.

Inductive Resampling : Type :=
  NEAREST | BOX | BILINEAR | HAMMING | BICUBIC | LANCZOS.

(** Sample of band [c] at column [x], row [y]. *)
Definition raster : Type := nat -> nat -> nat -> byte.

Record Image : Type := mk_Image {
  im_mode : Mode;
  im_size : nat * nat;          (* (width, height) *)
  im_load : raster
}.

Definition im_width (im : Image) : nat := fst (im_size im).
Definition im_height (im : Image) : nat := snd (im_size im).

(** [np.array(image, dtype='uint8')]: Pillow exposes the shape
    [(height, width)] for a one-band mode and [(height, width, bands)]
    otherwise, and the samples row by row. *)
Definition np_array_uint8 (im : Image) : ndarray byte :=
  let h := im_height im in
  let w := im_width im in
  let n := bands (im_mode im) in
  mk_ndarray
    (if decide (n = 1%nat) then [h; w] else [h; w; n])
    (y ← seq 0 h; x ← seq 0 w; c ← seq 0 n; [im_load im x y c]).

(** ** numpy reductions over [float64]

    [np.argmax] scans once, replacing the running maximum when the next
    element is not below or equal to it, and stops at the first NaN;
    [np.max] folds [np.maximum], which keeps its left argument when that
    one is greater or equal, or is NaN. *)

Module Np.
Local Open Scope float_scope.

Fixpoint argmax_scan (l : list float) (i : nat) (mp : float) (max_ind : nat)
  : nat :=
  match l with
  | [] => max_ind
  | x :: l' =>
      if negb (x <=? mp)
      then if is_nan x then i else argmax_scan l' (S i) x i
      else argmax_scan l' (S i) mp max_ind
  end.

Definition argmax_list (l : list float) : option nat :=
  match l with
  | [] => None
  | mp :: l' => Some (if is_nan mp then 0%nat else argmax_scan l' 1 mp 0)
  end.

Definition maximum (a b : float) : float :=
  if (b <=? a) || is_nan a then a else b.

Definition max_list (l : list float) : option float :=
  match l with
  | [] => None
  | x :: l' => Some (foldl maximum x l')
  end.

(** [np.argmax(a)] with no axis works on the flattened array and gives an
    [int64]. *)
Definition argmax (a : ndarray float) : outcome Z :=
  match argmax_list (nd_data a) with
  | Some i => Return (Z.of_nat i)
  | None => Raise (Exc ValueError "attempt to get argmax of an empty sequence")
  end.

Definition max (a : ndarray float) : outcome float :=
  match max_list (nd_data a) with
  | Some x => Return x
  | None =>
      Raise (Exc ValueError
        "zero-size array to reduction operation maximum which has no identity")
  end.

End Np.

(** ** JSON content and HTTP responses *)

Inductive jvalue : Type :=
| JString (s : string)
| JInt (z : Z)
| JFloat (x : float)
| JBool (b : bool).

(** A [dict] with string keys, in insertion order. *)
Definition jdict : Type := list (string * jvalue).

Inductive Body : Type :=
| Html (text : string)
| Json (content : jdict).

Record Response : Type := mk_Response {
  status_code : Z;
  body : Body
}.

Definition HTMLResponse (content : string) (status_code : Z) : Response :=
  mk_Response status_code (Html content).

(** Starlette renders the content with [json.dumps(..., allow_nan=False)],
    which refuses NaN and the infinities. *)
Definition json_compliant (v : jvalue) : bool :=
  match v with
  | JFloat x => is_finite x
  | _ => true
  end.

Definition JSONResponse (content : jdict) (status_code : Z) : outcome Response :=
  if forallb (fun kv => json_compliant (snd kv)) content
  then Return (mk_Response status_code (Json content))
  else Raise (Exc ValueError
                "Out of range float values are not JSON compliant").

(** What a path operation function may hand back to FastAPI. *)
Inductive HandlerValue : Type :=
| VStr (s : string)
| VResponse (r : Response).

(** ** The runtime: interpreter tables and third-party code *)

Record UploadFile : Type := mk_UploadFile {
  filename : string;
  file : list byte
}.

Record Runtime : Type := mk_Runtime {
  (** the loaded Keras model object *)
  Model : Type;
  (** CPython's Unicode lower-casing of a string that is not all ASCII *)
  unicode_lower : string -> string;
  (** [repr] of a numpy [int64] *)
  repr_int64 : Z -> string;
  (** [await file.read()] *)
  UploadFile_read : UploadFile -> outcome (list byte);
  (** [Image.open(io.BytesIO(contents))] *)
  Image_open : list byte -> outcome Image;
  (** Pillow's C conversion of the samples to another mode *)
  convert_core : Image -> Mode -> outcome raster;
  (** Pillow's C resampling of the samples to another size *)
  resize_core : Image -> nat * nat -> Resampling -> outcome raster;
  (** [model.predict(batch, verbose=0)] *)
  Model_predict : Model -> ndarray float -> outcome (ndarray float);
  (** [model_arc()] followed by [model.load_weights(path)] *)
  keras_load_weights : string -> outcome Model;
  (** [os.path.dirname(os.path.abspath(__file__))] of main.py *)
  module_dir : string;
  (** [os.path.abspath] *)
  abspath : string -> string
}.

Section Program.
Context (rt : Runtime).

(** [image.convert(mode)]: a new image of that mode and the same size. *)
Definition Image_convert (image : Image) (mode : Mode) : outcome Image :=
  px ← convert_core rt image mode;
  Return (mk_Image mode (im_size image) px).

(** [image.resize(size, resample)]: a copy when the size is already the
    requested one; palette images are resampled with NEAREST; the result has
    the mode of the source and the requested size. *)
Definition Image_resize (image : Image) (size : nat * nat)
    (resample : Resampling) : outcome Image :=
  if decide (im_size image = size) then Return image
  else
    let resample := if decide (im_mode image = P) then NEAREST else resample in
    px ← resize_core rt image size resample;
    Return (mk_Image (im_mode image) size px).

(** ** utils.py: [preprocess] *)

Definition preprocess (image : Image) : outcome (ndarray float) :=
  (* image = image.resize((300, 300), Image.Resampling.LANCZOS) *)
  image ← Image_resize image (300, 300)%nat LANCZOS;
  (* image = np.array(image, dtype='uint8') *)
  let image := np_array_uint8 image in
  (* image = np.array(image) / 255.0 *)
  let image := nd_map (fun b => F64.of_uint8 b / 255)%float image in
  Return image.

(** ** utils.py: [load_model] *)

Definition load_model (model_path : string) : outcome (Model rt) :=
  keras_load_weights rt model_path.

(** ** main.py: process state

    The module-level variable [model], the files the process can see, what
    it has printed, and the statements calling into the runtime that were
    executed so far. *)

Inductive FsNode : Type :=
| RegularFile (text : string)     (* a readable file and its bytes *)
| Unreadable                      (* a file the process may not read *)
| Directory.

Inductive Step : Type :=
| StepRead                        (* contents = await file.read() *)
| StepDecode                      (* image = Image.open(...) *)
| StepConvert                     (* if image.mode != 'RGB': ... *)
| StepPreprocess                  (* processed_image = preprocess(image) *)
| StepPredict                     (* predictions = model.predict(...) *)
| StepLoadModel (path : string)   (* model = load_model(model_path) *)
| StepOpen (path : string).       (* open(path, "r", encoding="utf-8") *)

Record World : Type := mk_World {
  model : option (Model rt);
  fs : gmap string FsNode;
  stdout : list string;
  steps : list Step
}.

(** A computation may change the world and ends by returning or raising. *)
Definition M (A : Type) : Type := World -> outcome A * World.

#[global] Instance M_ret : MRet M := fun A a w => (Return a, w).
#[global] Instance M_bind : MBind M := fun A B k m w =>
  match m w with
  | (Return a, w') => k a w'
  | (Raise e, w') => (Raise e, w')
  end.

Definition raise {A} (e : exn) : M A := fun w => (Raise e, w).

(** A pure expression evaluated inside a handler. *)
Definition eval {A} (o : outcome A) : M A := fun w => (o, w).

(** A statement that calls into the runtime, recorded once executed. *)
Definition step {A} (c : Step) (o : outcome A) : M A := fun w =>
  (o, mk_World (model w) (fs w) (stdout w) (steps w ++ [c])).

Definition print (line : string) : M unit := fun w =>
  (Return tt, mk_World (model w) (fs w) (stdout w ++ [line]) (steps w)).

(** Reading and (with [global model]) assigning the module variable. *)
Definition get_model : M (option (Model rt)) := fun w => (Return (model w), w).

Definition set_model (m : Model rt) : M unit := fun w =>
  (Return tt, mk_World (Some m) (fs w) (stdout w) (steps w)).

(** [try: body  except cls as e: handler e] *)
Definition try_except {A} (body : M A) (cls : pyclass) (handler : exn -> M A)
  : M A := fun w =>
  match body w with
  | (Return a, w') => (Return a, w')
  | (Raise e, w') =>
      if isinstance e cls then handler e w' else (Raise e, w')
  end.

Definition os_path_exists (path : string) : M bool := fun w =>
  (Return (bool_decide (is_Some (fs w !! path))), w).

(** [with open(path, "r", encoding="utf-8") as f: f.read()]: [open] fails
    on a missing path, a directory or a file without read permission;
    [read] decodes all the bytes as UTF-8, strictly, and translates the line
    endings. *)
Definition open_read (path : string) : M string := fun w =>
  let w' := mk_World (model w) (fs w) (stdout w) (steps w ++ [StepOpen path]) in
  match fs w !! path with
  | None =>
      (Raise (Exc FileNotFoundError
                ("[Errno 2] No such file or directory: '" +:+ path +:+ "'")), w')
  | Some Directory =>
      (Raise (Exc IsADirectoryError
                ("[Errno 21] Is a directory: '" +:+ path +:+ "'")), w')
  | Some Unreadable =>
      (Raise (Exc PermissionError
                ("[Errno 13] Permission denied: '" +:+ path +:+ "'")), w')
  | Some (RegularFile text) =>
      match Utf8.error text with
      | Some err => (Raise (Exc UnicodeDecodeError (Utf8.message err)), w')
      | None => (Return (universal_newlines text), w')
      end
  end.

(** [os.path.join(a, b)] for a relative [b] (posixpath). *)
Definition os_path_join (a b : string) : string :=
  if decide (a = "") then b
  else if String.eqb (String.substring (String.length a - 1) 1 a) "/"
       then a +:+ b
       else a +:+ "/" +:+ b.

(** ** main.py: [load_model_on_startup] *)

Definition load_model_on_startup : M unit :=
  try_except
    (let current_dir := module_dir rt in
     let model_path :=
       os_path_join (os_path_join current_dir "weights") "modelnew.h5" in
     let model_path := abspath rt model_path in
     found ← os_path_exists model_path;
     (if negb found
      then raise (Exc FileNotFoundError
                    ("Model file not found at: " +:+ model_path))
      else mret tt);;
     print ("Loading model from: " +:+ model_path);;
     m ← step (StepLoadModel model_path) (load_model model_path);
     set_model m;;
     print "Model loaded successfully!")
    Exception
    (fun e => print ("Error loading model: " +:+ str e);; raise e).

(** ** main.py: [read_root] *)

Definition read_root : M HandlerValue :=
  try_except
    (text ← open_read "static/index.html";
     mret (VStr text))
    FileNotFoundError
    (fun _ =>
       mret (VResponse
               (HTMLResponse "<h1>Error: index.html not found</h1>" 404))).

(** ** main.py: [predict]

    The body of the [try] block is given in two parts: [infer] is lines
    105-121 (read, decode, convert, normalize, batch, predict) and
    [interpret] is lines 124-139 (argmax, label, bin, response). *)

(** [LABELS[predicted_index]] *)
Definition LABELS_getitem (key : Z) : outcome string :=
  match LABELS !! key with
  | Some name => Return name
  | None => Raise (Exc KeyError (repr_int64 rt key))
  end.

(** [if image.mode != 'RGB': image = image.convert('RGB')] *)
Definition to_rgb (image : Image) : outcome Image :=
  if decide (im_mode image <> RGB) then Image_convert image RGB
  else Return image.

Definition infer (model : Model rt) (file : UploadFile) : M (ndarray float) :=
  contents ← step StepRead (UploadFile_read rt file);
  image ← step StepDecode (Image_open rt contents);
  image ← step StepConvert (to_rgb image);
  processed_image ← step StepPreprocess (preprocess image);
  let image_batch := np_expand_dims0 processed_image in
  step StepPredict (Model_predict rt model image_batch).

Definition interpret (predictions : ndarray float) : outcome Response :=
  row ← nd_getitem0 predictions;
  predicted_index ← Np.argmax row;
  row ← nd_getitem0 predictions;
  confidence ← Np.max row;
  predicted_class ← LABELS_getitem predicted_index;
  bin ← classify_recyclable (unicode_lower rt) (PyStr predicted_class);
  let '(bin_type, servo_angle) := bin in
  JSONResponse
    [("predicted_class", JString predicted_class);
     ("confidence", JFloat confidence);
     ("bin", JString bin_type);
     ("servo_angle", JInt servo_angle)]
    200.

(** The body of the [try] block. *)
Definition try_body (model : Model rt) (file : UploadFile) : M Response :=
  predictions ← infer model file;
  eval (interpret predictions).

Definition predict (file : UploadFile) : M Response :=
  m ← get_model;
  match m with
  | None => raise (HTTPExc 500 "Model not loaded")
  | Some model =>
      try_except (try_body model file) Exception
        (fun e =>
           raise (HTTPExc 400 ("Error processing image: " +:+ str e)))
  end.

(** ** main.py: [health_check] *)

Definition health_check : M jdict :=
  m ← get_model;
  mret [("status", JString "healthy");
        ("model_loaded", JBool (bool_decide (m <> None)))].

(** ** FastAPI: from a path operation function to the response sent

    A returned value is wrapped by the route's response class with status
    200; a raised [HTTPException] becomes the JSON body [{"detail": ...}]
    with its status code; any other exception leaves the route. *)

Definition route {A} (response_class : A -> Response) (handler : M A)
  : M Response := fun w =>
  match handler w with
  | (Return a, w') => (Return (response_class a), w')
  | (Raise (HTTPExc sc detail), w') =>
      (Return (mk_Response sc (Json [("detail", JString detail)])), w')
  | (Raise e, w') => (Raise e, w')
  end.

(** [@app.get("/", response_class=HTMLResponse)] *)
Definition GET_root : M Response :=
  route (fun v => match v with
                  | VStr text => HTMLResponse text 200
                  | VResponse r => r
                  end) read_root.

(** [@app.post("/predict")] *)
Definition POST_predict (file : UploadFile) : M Response :=
  route (fun r => r) (predict file).

(** [@app.get("/health")] *)
Definition GET_health : M Response :=
  route (fun d => mk_Response 200 (Json d)) health_check.

(** ** Vocabulary of the properties *)

(** A computation that leaves the module variable [model] as it found it. *)
Definition keeps_model {A} (c : M A) : Prop :=
  forall w, model (snd (c w)) = model w.

End Program.

(** [i] is the position of the first largest element of [v]: every element
    is below or equal to [v[i]] and every earlier one is strictly below. *)
Definition is_first_max (v : list float) (i : nat) : Prop :=
  exists m, v !! i = Some m
    /\ (forall j x, v !! j = Some x -> (x <=? m)%float = true)
    /\ (forall j x, (j < i)%nat -> v !! j = Some x -> (x <? m)%float = true).

(** ** A small concrete runtime

    Used to run the program on explicit inputs: the decoder yields a 2x2
    grey image whatever the bytes, conversion to RGB repeats the grey
    sample in every band, resampling is nearest-neighbour, and the model
    answers with a fixed array. *)

Module Demo.

Definition grey2x2 : Image :=
  mk_Image L (2, 2)%nat (fun x y _ => if Nat.eqb x y then xff else x40).

Definition nearest (im : Image) (size : nat * nat) : raster :=
  fun x y c =>
    im_load im (x * im_width im / fst size)%nat
               (y * im_height im / snd size)%nat c.

Definition runtime (read : outcome (list byte)) (decoded : outcome Image)
    (answer : outcome (ndarray float)) : Runtime :=
  {| Model := unit;
     unicode_lower := fun s => s;
     repr_int64 := str_of_Z;
     UploadFile_read := fun _ => read;
     Image_open := fun _ => decoded;
     convert_core := fun im _ => Return (fun x y _ => im_load im x y 0%nat);
     resize_core := fun im size _ => Return (nearest im size);
     Model_predict := fun _ _ => answer;
     keras_load_weights := fun _ => Return tt;
     module_dir := "/srv/app";
     abspath := fun p => p |}.

(** [grey2x2] after [convert('RGB')] and after [resize((300, 300))]. *)
Definition grey_as_rgb : Image :=
  mk_Image RGB (2, 2)%nat (fun x y _ => im_load grey2x2 x y 0%nat).

Definition rgb_resized : Image :=
  mk_Image RGB (300, 300)%nat (nearest grey_as_rgb (300, 300)%nat).

Definition grey_resized : Image :=
  mk_Image L (300, 300)%nat (nearest grey2x2 (300, 300)%nat).

Definition upload : UploadFile := mk_UploadFile "can.jpg" [xff; xd8; xff].

(** A softmax output whose largest entry, 0.5, occurs at indices 2 and 4. *)
Definition tied : ndarray float :=
  mk_ndarray [1; 6]%nat [0.125; 0; 0.5; 0.125; 0.5; 0.25]%float.

(** An output eight wide whose largest entry is at index 7. *)
Definition too_wide : ndarray float :=
  mk_ndarray [1; 8]%nat [0; 0; 0; 0; 0; 0; 0.25; 0.75]%float.

(** Everything succeeds and the model answers [tied]. *)
Definition rt_ok : Runtime :=
  runtime (Return (file upload)) (Return grey2x2) (Return tied).

(** The upload is not an image. *)
Definition rt_undecodable : Runtime :=
  runtime (Return (file upload))
          (Raise (Exc UnidentifiedImageError "cannot identify image file"))
          (Return tied).

(** The request is cancelled while the upload is being read. *)
Definition rt_cancelled : Runtime :=
  runtime (Raise (Exc CancelledError "")) (Return grey2x2) (Return tied).

(** The model answers with eight columns. *)
Definition rt_wide : Runtime :=
  runtime (Return (file upload)) (Return grey2x2) (Return too_wide).

(** A world with the model loaded, nothing on disk, and the given
    statements already executed; and the world before startup. *)
Definition loaded (rt : Runtime) (m : Model rt) (done : list Step) : World rt :=
  mk_World rt (Some m) ∅ [] done.

Definition not_loaded (rt : Runtime) : World rt := mk_World rt None ∅ [] [].

(** The statements of a complete run of the pipeline. *)
Definition full_run : list Step :=
  [StepRead; StepDecode; StepConvert; StepPreprocess; StepPredict].

End Demo.

(** ** utils.py: [model_arc]

    The network is a [Sequential] stack; what is kept of each Keras layer is
    its constructor arguments and the shape of one sample after it. *)

Module Keras.

Inductive Activation : Type := relu | softmax.
Inductive Padding : Type := valid | same.

Inductive Layer : Type :=
| Conv2D (filters : N) (kernel_size : N * N) (padding : Padding)
         (input_shape : option (list N)) (activation : Activation)
| MaxPooling2D (pool_size : N)
| Flatten
| Dense (units : N) (activation : Activation)
| Dropout (rate : float).

Record Sequential : Type := mk_Sequential {
  layers : list Layer;
  optimizer : string;
  loss : string;
  metrics : list string
}.

(** Shape of one sample after a layer (stride 1 convolutions, pooling with
    stride equal to the pool size and no padding); [None] where Keras
    refuses the input. *)
Definition compute_output_shape (l : Layer) (s : list N) : option (list N) :=
  match l, s with
  | Conv2D f (kh, kw) same _ _, [h; w; _] => Some [h; w; f]
  | Conv2D f (kh, kw) valid _ _, [h; w; _] =>
      if ((kh <=? h) && (kw <=? w))%N
      then Some [h - kh + 1; w - kw + 1; f]%N else None
  | MaxPooling2D p, [h; w; c] =>
      if ((0 <? p) && (p <=? h) && (p <=? w))%N
      then Some [(h - p) / p + 1; (w - p) / p + 1; c]%N else None
  | Flatten, _ :: _ => Some [foldr N.mul 1%N s]
  | Dense u _, [_] => Some [u]
  | Dropout _, _ => Some s
  | _, _ => None
  end.

(** The shapes after each layer of a stack, in order. *)
Fixpoint shapes_through (ls : list Layer) (s : list N)
  : option (list (list N)) :=
  match ls with
  | [] => Some []
  | l :: ls' =>
      s' ← compute_output_shape l s;
      rest ← shapes_through ls' s';
      Some (s' :: rest)
  end.

(** The shape declared by the first layer's [input_shape]. *)
Definition declared_input_shape (m : Sequential) : option (list N) :=
  match layers m with
  | Conv2D _ _ _ (Some s) _ :: _ => Some s
  | _ => None
  end.

(** The shape of one sample at the output of the whole stack. *)
Definition output_shape (m : Sequential) : option (list N) :=
  s ← declared_input_shape m;
  all ← shapes_through (layers m) s;
  last all.

End Keras.

Definition model_arc : Keras.Sequential :=
  Keras.mk_Sequential
    [ (* Convolution blocks *)
      Keras.Conv2D 32 (3, 3)%N Keras.same (Some [300; 300; 3]%N) Keras.relu;
      Keras.MaxPooling2D 2;
      Keras.Conv2D 64 (3, 3)%N Keras.same None Keras.relu;
      Keras.MaxPooling2D 2;
      Keras.Conv2D 32 (3, 3)%N Keras.same None Keras.relu;
      Keras.MaxPooling2D 2;
      (* Classification layers *)
      Keras.Flatten;
      Keras.Dense 64 Keras.relu;
      Keras.Dropout 0.2;
      Keras.Dense 32 Keras.relu;
      Keras.Dropout 0.2;
      Keras.Dense 6 Keras.softmax ]
    "adam" "sparse_categorical_crossentropy" ["accuracy"].

(** A runtime whose weights file cannot be parsed. *)
Definition rt_bad_weights : Runtime :=
  mk_Runtime unit (fun s => s) str_of_Z
    (fun f => Return (file f)) (fun _ => Return Demo.grey2x2)
    (fun im _ => Return (fun x y _ => im_load im x y 0%nat))
    (fun im size _ => Return (Demo.nearest im size))
    (fun _ _ => Return Demo.tied)
    (fun _ => Raise (Exc OSError "Unable to open file (file signature not found)"))
    "/srv/app" (fun p => p).

(** A prediction row whose fourth entry is NaN, and a prediction with no
    row at all; the runtimes whose model answers them. *)
Definition nan_row : ndarray float :=
  mk_ndarray [1; 6]%nat [0.25; 0.5; 0; nan; 0.125; 0.125]%float.

Definition no_rows : ndarray float := mk_ndarray [0; 6]%nat [].

Definition rt_nan : Runtime :=
  Demo.runtime (Return (file Demo.upload)) (Return Demo.grey2x2) (Return nan_row).

Definition rt_no_rows : Runtime :=
  Demo.runtime (Return (file Demo.upload)) (Return Demo.grey2x2) (Return no_rows).

(** A page saved in Latin-1: its first byte, 0xff, starts no UTF-8
    sequence; and a world whose static directory holds it. *)
Definition latin1_page : string := String (ascii_of_N 255) "</html>".

Definition latin1_world : World Demo.rt_ok :=
  mk_World Demo.rt_ok None {[ "static/index.html" := RegularFile latin1_page ]}
    [] [].

(** The five statements of the pipeline, in program order. *)
Definition pipeline : list Step :=
  [StepRead; StepDecode; StepConvert; StepPreprocess; StepPredict].

(** ** Vocabulary of the further properties *)

(** [str.upper] on an all-ASCII string works character by character. *)
Definition ascii_toupper (c : ascii) : ascii :=
  let n := N_of_ascii c in
  if ((97 <=? n) && (n <=? 122))%N then ascii_of_N (n - 32) else c.

(** The normalized value of the 8-bit sample [n]. *)
Definition unit_of_sample (n : N) : float :=
  (PrimFloat.of_uint63 (Uint63.of_Z (Z.of_N n)) / 255)%float.

(** The world [w] once the statements [done] have been executed. *)
Definition advanced (rt : Runtime) (w : World rt) (done : list Step) : World rt :=
  mk_World rt (model rt w) (fs rt w) (stdout rt w) (steps rt w ++ done).

(** The world [w] once the lines [out] have been printed. *)
Definition printed (rt : Runtime) (w : World rt) (out : list string) : World rt :=
  mk_World rt (model rt w) (fs rt w) (stdout rt w ++ out) (steps rt w).

(** The path the startup routine loads the weights from. *)
Definition weights_path (rt : Runtime) : string :=
  abspath rt (os_path_join (os_path_join (module_dir rt) "weights") "modelnew.h5").


(** * Properties *)

(** ** The bin classifier *)

Lemma str_in_elem_of (x : string) (l : list string) :
  str_in x l = bool_decide (x ∈ l).
Proof.
  unfold str_in. induction l as [|y l IH]; cbn [existsb].
  - symmetry. apply bool_decide_eq_false_2. apply not_elem_of_nil.
  - rewrite IH. destruct (String.eqb_spec x y) as [->|Hne]; cbn [orb].
    + symmetry. apply bool_decide_eq_true_2. apply elem_of_cons. by left.
    + cbn [orb]. apply bool_decide_ext. rewrite elem_of_cons.
      split; [by right|]. by intros [?|?].
Qed.

(** On a [str] the method exists and the list membership test decides. *)
Lemma classify_recyclable_str (ul : string -> string) (s : string) :
  classify_recyclable ul (PyStr s) =
    Return (if bool_decide (str_lower ul s ∈ RECYCLABLE_CATEGORIES)
            then ("Recyclable", 90) else ("Other", 0)).
Proof.
  unfold classify_recyclable.
  change (method_lower ul (PyStr s) ≫= _) with
    (if str_in (str_lower ul s) RECYCLABLE_CATEGORIES
     then Return ("Recyclable", 90) else Return ("Other", 0)).
  rewrite str_in_elem_of. by case_bool_decide.
Qed.

(** An object without [lower], such as [None], makes the call raise. *)
Example classify_recyclable_None (ul : string -> string) :
  classify_recyclable ul PyNone =
    Raise (Exc AttributeError "'NoneType' object has no attribute 'lower'").
Proof. reflexivity. Qed.

(** C1: [classify_recyclable] returns on every string, never raising:
    [("Recyclable", 90)] when the lower-cased string is one of cardboard,
    glass, metal, paper, plastic and [("Other", 0)] for every other string,
    so the angle is always 0 or 90; the answer depends on the lower-cased
    form only, e.g. "Cardboard" and "PLASTIC" are recyclable, "trash",
    "Trash" and unknown names are not. *)
Theorem classify_recyclable_total (ul : string -> string) (s : string) :
  classify_recyclable ul (PyStr s) =
    Return (if bool_decide
                 (str_lower ul s ∈ ["cardboard"; "glass"; "metal"; "paper"; "plastic"])
            then ("Recyclable", 90) else ("Other", 0))
  /\ (exists bin angle,
        classify_recyclable ul (PyStr s) = Return (bin, angle)
        /\ (angle = 0 \/ angle = 90))
  /\ (forall t, str_lower ul t = str_lower ul s ->
        classify_recyclable ul (PyStr t) = classify_recyclable ul (PyStr s))
  /\ classify_recyclable ul (PyStr "Cardboard") = Return ("Recyclable", 90)
  /\ classify_recyclable ul (PyStr "PLASTIC") = Return ("Recyclable", 90)
  /\ classify_recyclable ul (PyStr "trash") = Return ("Other", 0)
  /\ classify_recyclable ul (PyStr "Trash") = Return ("Other", 0)
  /\ classify_recyclable ul (PyStr "styrofoam") = Return ("Other", 0).
Proof.
  split; [exact (classify_recyclable_str ul s)|].
  split.
  { rewrite classify_recyclable_str. case_bool_decide; eauto. }
  split.
  { intros t Ht. by rewrite !classify_recyclable_str, Ht. }
  repeat split; reflexivity.
Qed.

(** ** Normalization *)

Lemma of_uint8_over_255_in_unit (b : byte) :
  F64.in_unit_interval (F64.of_uint8 b / 255)%float = true.
Proof. destruct b; vm_compute; reflexivity. Qed.

Lemma length_bind_const {A B} (f : A -> list B) (k : nat) (l : list A) :
  (forall a, length (f a) = k) -> length (l ≫= f) = (length l * k)%nat.
Proof.
  intros Hf. induction l as [|a l IH]; [done|].
  cbn [mbind list_bind]. rewrite length_app, Hf, IH. simpl. lia.
Qed.

Lemma np_array_uint8_shape (im : Image) :
  nd_shape (np_array_uint8 im) =
    if decide (bands (im_mode im) = 1%nat)
    then [im_height im; im_width im]
    else [im_height im; im_width im; bands (im_mode im)].
Proof. reflexivity. Qed.

Lemma np_array_uint8_wf (im : Image) : nd_wf (np_array_uint8 im).
Proof.
  unfold nd_wf, np_array_uint8. cbn [nd_data nd_shape].
  rewrite (length_bind_const _ (im_width im * bands (im_mode im))).
  - rewrite length_seq. destruct (decide _) as [->|]; simpl; lia.
  - intros y. rewrite (length_bind_const _ (bands (im_mode im))).
    + by rewrite length_seq.
    + intros x. rewrite (length_bind_const _ 1).
      * rewrite length_seq. lia.
      * done.
Qed.



Lemma nd_map_wf {A B} (f : A -> B) (a : ndarray A) : nd_wf a -> nd_wf (nd_map f a).
Proof. unfold nd_wf, nd_map. cbn [nd_data nd_shape]. by rewrite length_fmap. Qed.

Section Normalization.
Context (rt : Runtime).

Lemma Image_convert_inv (image out : Image) (mode : Mode) :
  Image_convert rt image mode = Return out ->
  im_mode out = mode /\ im_size out = im_size image.
Proof.
  unfold Image_convert. destruct (convert_core rt image mode); [|done].
  intros [= <-]. done.
Qed.

Lemma Image_resize_inv (image out : Image) (size : nat * nat) (r : Resampling) :
  Image_resize rt image size r = Return out ->
  im_mode out = im_mode image /\ im_size out = size.
Proof.
  unfold Image_resize. destruct (decide _) as [Hsz|_].
  - by intros [= <-].
  - destruct (resize_core rt image size _); [|done]. by intros [= <-].
Qed.

Lemma to_rgb_inv (image rgb : Image) :
  to_rgb rt image = Return rgb ->
  im_mode rgb = RGB /\ im_size rgb = im_size image.
Proof.
  unfold to_rgb. destruct (decide _) as [Hne|He].
  - apply Image_convert_inv.
  - intros [= <-]. split; [|done].
    by destruct (decide (im_mode image = RGB)).
Qed.

(** What [preprocess] returns once Pillow has resized the image. *)
Lemma preprocess_unfold (image resized : Image) :
  Image_resize rt image (300, 300)%nat LANCZOS = Return resized ->
  preprocess rt image =
    Return (nd_map (fun b => (F64.of_uint8 b / 255)%float)
                   (np_array_uint8 resized)).
Proof. unfold preprocess. by intros ->. Qed.

Lemma preprocess_range (image : Image) (arr : ndarray float) :
  preprocess rt image = Return arr ->
  Forall (fun x => F64.in_unit_interval x = true /\ F64.is_uint8_over_255 x)
         (nd_data arr).
Proof.
  unfold preprocess. destruct (Image_resize rt image _ _) as [resized|]; [|done].
  intros [= <-]. cbn [nd_map nd_data]. apply Forall_fmap, Forall_true.
  intros b. split; [apply of_uint8_over_255_in_unit|by exists b].
Qed.


(** C9: [preprocess] alone converts no mode: once Pillow has resized the
    image, the array has shape 300x300 when the mode has one band and
    300x300xbands otherwise, so a grey (L) image gives a two-dimensional
    300x300 array and an RGBA image a 300x300x4 array, and the shape is
    300x300x3 exactly for the modes with three bands; that the array is
    RGB comes from [to_rgb], the conversion done in [predict] before
    [preprocess], whose result always has mode RGB. *)
Theorem preprocess_keeps_mode (image resized : Image) :
  Image_resize rt image (300, 300)%nat LANCZOS = Return resized ->
  exists arr,
    preprocess rt image = Return arr
    /\ nd_shape arr =
         (if decide (bands (im_mode image) = 1%nat)
          then [300; 300] else [300; 300; bands (im_mode image)])%nat
    /\ (im_mode image = L -> nd_shape arr = [300; 300]%nat)
    /\ (im_mode image = RGBA -> nd_shape arr = [300; 300; 4]%nat)
    /\ (nd_shape arr = [300; 300; 3]%nat <-> bands (im_mode image) = 3%nat)
    /\ (forall rgb, to_rgb rt image = Return rgb -> im_mode rgb = RGB).
Proof.
  intros Hres.
  destruct (Image_resize_inv _ _ _ _ Hres) as [Hmode Hsize].
  assert (Hshape :
    nd_shape (nd_map (fun b => (F64.of_uint8 b / 255)%float)
                     (np_array_uint8 resized)) =
      (if decide (bands (im_mode image) = 1%nat)
       then [300; 300] else [300; 300; bands (im_mode image)])%nat).
  { cbn [nd_map nd_shape]. rewrite np_array_uint8_shape.
    unfold im_height, im_width. by rewrite Hsize, Hmode. }
  eexists. split; [by apply preprocess_unfold|].
  split; [exact Hshape|].
  split; [intros HL; rewrite Hshape, HL; reflexivity|].
  split; [intros HA; rewrite Hshape, HA; reflexivity|].
  split.
  - rewrite Hshape. destruct (decide (bands (im_mode image) = 1%nat)) as [Hb|Hb].
    + rewrite Hb. split; [discriminate|lia].
    + split; [by intros [= ->]|by intros ->].
  - intros rgb Hrgb. by destruct (to_rgb_inv _ _ Hrgb).
Qed.

End Normalization.

(** ** Order facts about binary64 comparisons

    Derived from the IEEE 754 specification of the primitive floats
    ([SpecFloat]): away from NaN, [<=?] is a total preorder. *)

Section FloatOrder.
Local Open Scope float_scope.

Lemma SFcompare_antisym (x y : spec_float) :
  SFcompare y x = option_map CompOpp (SFcompare x y).
Proof.
  unfold SFcompare.
  destruct x as [sx|sx| |sx mx ex], y as [sy|sy| |sy my ey]; try reflexivity;
    repeat match goal with s : bool |- _ => destruct s end; try reflexivity;
    change (Pos.compare_cont Eq) with Pos.compare; cbn [option_map];
    rewrite (Z.compare_antisym ex ey), (Pos.compare_antisym mx my);
    destruct (Z.compare ex ey); cbn [CompOpp]; try reflexivity;
    by rewrite ?CompOpp_involutive.
Qed.

Lemma SFcompare_refl (x : spec_float) :
  x <> S754_nan -> SFcompare x x = Some Eq.
Proof.
  destruct x as [s|s| |s m e]; try done; intros _; cbn [SFcompare].
  - by destruct s.
  - change (Pos.compare_cont Eq) with Pos.compare.
    rewrite Z.compare_refl, Pos.compare_refl. by destruct s.
Qed.

Lemma SFcompare_None (x y : spec_float) :
  SFcompare x y = None -> x = S754_nan \/ y = S754_nan.
Proof.
  destruct x as [sx|sx| |sx mx ex], y as [sy|sy| |sy my ey]; cbn [SFcompare];
    intros H; try discriminate H; auto.
Qed.

Lemma SFleb_trans (x y z : spec_float) :
  SFleb x y = true -> SFleb y z = true -> SFleb x z = true.
Proof.
  unfold SFleb, SFcompare.
  destruct x as [sx|sx| |sx mx ex], y as [sy|sy| |sy my ey],
           z as [sz|sz| |sz mz ez]; try congruence;
    repeat match goal with s : bool |- _ => destruct s end; try congruence;
    change (Pos.compare_cont Eq) with Pos.compare;
    destruct (Z.compare_spec ex ey), (Z.compare_spec ey ez),
             (Z.compare_spec ex ez); try congruence; try lia; subst;
    destruct (Pos.compare_spec mx my), (Pos.compare_spec my mz),
             (Pos.compare_spec mx mz); simpl; try congruence; try lia.
Qed.

Lemma is_nan_false (x : float) :
  is_nan x = false <-> Prim2SF x <> S754_nan.
Proof.
  unfold is_nan. rewrite eqb_spec. unfold SFeqb. split.
  - intros H Hn. rewrite Hn in H. discriminate H.
  - intros Hn. by rewrite SFcompare_refl.
Qed.

Lemma leb_not_nan (x y : float) :
  (x <=? y) = true -> is_nan x = false /\ is_nan y = false.
Proof.
  rewrite leb_spec, !is_nan_false. unfold SFleb. intros H.
  split; intros Hn; rewrite Hn in H; [done|].
  by destruct (Prim2SF x).
Qed.

Lemma leb_trans (x y z : float) :
  (x <=? y) = true -> (y <=? z) = true -> (x <=? z) = true.
Proof. rewrite !leb_spec. apply SFleb_trans. Qed.

Lemma leb_refl (x : float) : is_nan x = false -> (x <=? x) = true.
Proof.
  rewrite is_nan_false, leb_spec. intros Hn.
  unfold SFleb. by rewrite SFcompare_refl.
Qed.

Lemma leb_total (x y : float) :
  is_nan x = false -> is_nan y = false ->
  (x <=? y) = false -> (y <=? x) = true.
Proof.
  rewrite !is_nan_false, !leb_spec. unfold SFleb. intros Hx Hy.
  rewrite (SFcompare_antisym (Prim2SF x) (Prim2SF y)).
  destruct (SFcompare (Prim2SF x) (Prim2SF y)) as [[]|] eqn:Hc; try done.
  apply SFcompare_None in Hc. tauto.
Qed.

(** Away from NaN, "not below or equal" is "strictly above". *)
Lemma leb_false_ltb (x y : float) :
  is_nan x = false -> is_nan y = false ->
  (x <=? y) = false -> (y <? x) = true.
Proof.
  rewrite !is_nan_false, leb_spec, ltb_spec. unfold SFleb, SFltb.
  intros Hx Hy. rewrite (SFcompare_antisym (Prim2SF x) (Prim2SF y)).
  destruct (SFcompare (Prim2SF x) (Prim2SF y)) as [[]|] eqn:Hc; try done.
  apply SFcompare_None in Hc. tauto.
Qed.

Lemma in_unit_interval_finite (x : float) :
  F64.in_unit_interval x = true -> is_finite x = true.
Proof.
  unfold F64.in_unit_interval. intros [H0 H1]%andb_true_iff.
  destruct (leb_not_nan _ _ H0) as [_ Hn].
  unfold is_finite. rewrite Hn. cbn [orb].
  unfold is_infinity. rewrite eqb_spec, abs_spec.
  rewrite leb_spec in H0, H1.
  change (Prim2SF 0) with (S754_zero false) in H0.
  change (Prim2SF infinity) with (S754_infinity false).
  destruct (Prim2SF x) as [s|s| |s m e]; try done.
  destruct s; [discriminate H0|].
  revert H1. by vm_compute.
Qed.

End FloatOrder.

(** ** [np.argmax] and [np.max] *)

Section Argmax.
Local Open Scope float_scope.
Local Open Scope list_scope.

(** The scan keeps, for the part [pre] already read, the position [k] of
    its first largest element [mp]; [np.max]'s fold carries the same [mp]. *)
Lemma argmax_scan_spec (l pre : list float) (mp : float) (k : nat) :
  Forall (fun x => is_nan x = false) (pre ++ l) ->
  pre !! k = Some mp ->
  (forall j x, pre !! j = Some x -> (x <=? mp) = true) ->
  (forall j x, (j < k)%nat -> pre !! j = Some x -> (mp <=? x) = false) ->
  let i := Np.argmax_scan l (length pre) mp k in
  (pre ++ l) !! i = Some (foldl Np.maximum mp l)
  /\ (forall j x, (pre ++ l) !! j = Some x ->
        (x <=? foldl Np.maximum mp l) = true)
  /\ (forall j x, (j < i)%nat -> (pre ++ l) !! j = Some x ->
        (foldl Np.maximum mp l <=? x) = false).
Proof.
  revert pre mp k. induction l as [|x l IH]; intros pre mp k Hnan Hk Hle Hlt.
  - cbn [Np.argmax_scan foldl]. rewrite app_nil_r. auto.
  - assert (Hmp : is_nan mp = false).
    { eapply Forall_forall in Hnan; [exact Hnan|].
      apply elem_of_app. left. by eapply list_elem_of_lookup_2. }
    assert (Hx : is_nan x = false).
    { eapply Forall_forall in Hnan; [exact Hnan|].
      apply elem_of_app. right. left. }
    cbn [Np.argmax_scan foldl]. unfold Np.maximum at 2 4 6.
    rewrite Hmp, orb_false_r.
    replace (pre ++ x :: l) with ((pre ++ [x]) ++ l) in *
      by (by rewrite <- app_assoc).
    replace (S (length pre)) with (length (pre ++ [x]))
      by (rewrite length_app; simpl; lia).
    destruct (x <=? mp) eqn:Hxm; cbn [negb].
    + apply IH; [done| | |].
      * by apply lookup_app_l_Some.
      * intros j y [Hy|[_ Hy]]%lookup_app_Some; [by eapply Hle|].
        destruct (j - length pre)%nat; [|done]. by injection Hy as <-.
      * intros j y Hj [Hy|[Hge _]]%lookup_app_Some; [by eapply Hlt|].
        apply lookup_lt_Some in Hk. lia.
    + rewrite Hx. apply IH; [done| | |].
      * rewrite lookup_app_r by lia. by rewrite Nat.sub_diag.
      * intros j y [Hy|[_ Hy]]%lookup_app_Some.
        -- eapply leb_trans; [by eapply Hle|]. by apply leb_total.
        -- destruct (j - length pre)%nat; [|done].
           injection Hy as <-. by apply leb_refl.
      * intros j y Hj [Hy|[Hge _]]%lookup_app_Some; [|lia].
        destruct (x <=? y) eqn:Hxy; [|done].
        rewrite (leb_trans x y mp) in Hxm; [done|done|by eapply Hle].
Qed.

(** On a non-empty vector without NaN, [np.argmax] is the position of the
    first largest element and [np.max] is the element at that position. *)
Lemma argmax_first_max (v : list float) :
  v <> [] ->
  Forall (fun x => is_nan x = false) v ->
  exists i m,
    Np.argmax_list v = Some i
    /\ Np.max_list v = Some m
    /\ v !! i = Some m
    /\ is_first_max v i.
Proof.
  destruct v as [|x0 l]; [done|]. intros _ Hnan.
  assert (H0 : is_nan x0 = false) by (by inversion Hnan).
  destruct (argmax_scan_spec l [x0] x0 0) as (Hi & Hle & Hlt).
  - exact Hnan.
  - reflexivity.
  - intros [|j] y; [|done]. intros [= <-]. by apply leb_refl.
  - intros j y Hj. lia.
  - cbn [length app] in *.
    exists (Np.argmax_scan l 1 x0 0), (foldl Np.maximum x0 l).
    cbn [Np.argmax_list Np.max_list]. rewrite H0.
    repeat split; try done.
    exists (foldl Np.maximum x0 l). repeat split; try done.
    intros j y Hj Hy. apply leb_false_ltb.
    + destruct (leb_not_nan _ _ (Hle _ _ Hi)) as [? _]. done.
    + destruct (leb_not_nan _ _ (Hle _ _ Hy)) as [? _]. done.
    + by eapply Hlt.
Qed.

End Argmax.

(** ** Running handlers *)

Section Handlers.
Context (rt : Runtime).
Implicit Types (w : World rt) (file : UploadFile).

Lemma bind_Return {A B} (c : M rt A) (k : A -> M rt B) w w' (a : A) :
  c w = (Return a, w') -> (c ≫= k) w = k a w'.
Proof. unfold mbind, M_bind. by intros ->. Qed.

Lemma predict_loaded file w (m : Model rt) :
  model rt w = Some m ->
  predict rt file w =
    try_except rt (try_body rt m file) Exception
      (fun e => raise rt (HTTPExc 400 ("Error processing image: " +:+ str e))) w.
Proof.
  intros Hm. unfold predict.
  rewrite (bind_Return _ _ w w (model rt w)) by reflexivity.
  by rewrite Hm.
Qed.

Lemma predict_not_loaded file w :
  model rt w = None ->
  predict rt file w = (Raise (HTTPExc 500 "Model not loaded"), w).
Proof.
  intros Hm. unfold predict.
  rewrite (bind_Return _ _ w w (model rt w)) by reflexivity.
  by rewrite Hm.
Qed.

(** ** Frame: which computations leave the variable [model] alone *)

Lemma keeps_ret {A} (a : A) : keeps_model rt (mret a : M rt A).
Proof. by intros w. Qed.

Lemma keeps_raise {A} (e : exn) : keeps_model rt (@raise rt A e).
Proof. by intros w. Qed.

Lemma keeps_eval {A} (o : outcome A) : keeps_model rt (eval rt o).
Proof. by intros w. Qed.

Lemma keeps_step {A} (s : Step) (o : outcome A) : keeps_model rt (step rt s o).
Proof. by intros w. Qed.

Lemma keeps_print (line : string) : keeps_model rt (print rt line).
Proof. by intros w. Qed.

Lemma keeps_get_model : keeps_model rt (get_model rt).
Proof. by intros w. Qed.

Lemma keeps_open_read (path : string) : keeps_model rt (open_read rt path).
Proof.
  intros w. unfold open_read.
  destruct (fs rt w !! path) as [[text| |]|]; try done.
  by destruct (Utf8.error text).
Qed.

Lemma keeps_bind {A B} (c : M rt A) (k : A -> M rt B) :
  keeps_model rt c -> (forall a, keeps_model rt (k a)) -> keeps_model rt (c ≫= k).
Proof.
  intros Hc Hk w. unfold mbind, M_bind. specialize (Hc w).
  destruct (c w) as [[a|e] w1]; cbn [snd] in *; [|done].
  by rewrite Hk.
Qed.

Lemma keeps_try_except {A} (c : M rt A) (cls : pyclass) (h : exn -> M rt A) :
  keeps_model rt c -> (forall e, keeps_model rt (h e)) ->
  keeps_model rt (try_except rt c cls h).
Proof.
  intros Hc Hh w. unfold try_except. specialize (Hc w).
  destruct (c w) as [[a|e] w1]; cbn [snd] in *; [done|].
  destruct (isinstance e cls); [|done]. by rewrite Hh.
Qed.

Lemma keeps_route {A} (rc : A -> Response) (c : M rt A) :
  keeps_model rt c -> keeps_model rt (route rt rc c).
Proof.
  intros Hc w. unfold route. specialize (Hc w).
  by destruct (c w) as [[a|[]] w1].
Qed.

Create HintDb frame.
#[local] Hint Resolve keeps_ret keeps_raise keeps_eval keeps_step keeps_print
  keeps_get_model keeps_open_read : frame.
#[local] Hint Extern 2 (keeps_model _ (_ ≫= _)) =>
  apply keeps_bind; [|intros ?] : frame.
#[local] Hint Extern 2 (keeps_model _ (try_except _ _ _ _)) =>
  apply keeps_try_except; [|intros ?] : frame.
#[local] Hint Extern 2 (keeps_model _ (route _ _ _)) => apply keeps_route : frame.

Lemma keeps_infer (m : Model rt) file : keeps_model rt (infer rt m file).
Proof. unfold infer. auto 12 with frame. Qed.

Lemma keeps_predict file : keeps_model rt (predict rt file).
Proof.
  unfold predict. apply keeps_bind; [auto with frame|].
  intros [m|]; [|auto with frame].
  apply keeps_try_except; [|auto with frame].
  apply keeps_bind; [apply keeps_infer|auto with frame].
Qed.

Lemma keeps_health_check : keeps_model rt (health_check rt).
Proof. unfold health_check. auto with frame. Qed.

Lemma keeps_read_root : keeps_model rt (read_root rt).
Proof. unfold read_root. auto 8 with frame. Qed.

End Handlers.

(** ** The endpoints *)

Lemma utf8_error_from_ascii (s : string) (pos : nat) :
  is_ascii s = true -> Utf8.error_from pos s = None.
Proof.
  unfold is_ascii. revert pos. induction s as [|c s IH]; intros pos; [done|].
  cbn [str_forall Utf8.error_from]. unfold is_ascii_char.
  intros [Hc Hs]%andb_true_iff. rewrite Hc. by apply IH.
Qed.

Lemma utf8_error_ascii (s : string) :
  is_ascii s = true -> Utf8.error s = None.
Proof. apply utf8_error_from_ascii. Qed.

Section Endpoints.
Context (rt : Runtime).
Implicit Types (w : World rt) (file : UploadFile).

(** C5: when [model] is [None], POST /predict answers 500 with the fixed
    message "Model not loaded"; the world is left exactly as it was, so no
    load was attempted, [model] is still [None] and no statement of the
    pipeline was executed. *)
Theorem predict_model_not_loaded file w :
  model rt w = None ->
  predict rt file w = (Raise (HTTPExc 500 "Model not loaded"), w)
  /\ POST_predict rt file w =
       (Return (mk_Response 500 (Json [("detail", JString "Model not loaded")])), w)
  /\ steps rt (snd (POST_predict rt file w)) = steps rt w
  /\ model rt (snd (POST_predict rt file w)) = None.
Proof.
  intros Hm.
  assert (Hp := predict_not_loaded rt file w Hm).
  assert (Hr : POST_predict rt file w =
    (Return (mk_Response 500 (Json [("detail", JString "Model not loaded")])), w)).
  { unfold POST_predict, route. by rewrite Hp. }
  by rewrite Hr.
Qed.

(** C6: GET /health always answers 200 with exactly
    [{"status": "healthy", "model_loaded": b}], where [b] is [true] when
    [model] holds a model and [false] when it is [None]; nothing is raised
    and the world is unchanged. *)
Theorem health_check_reports_model w :
  GET_health rt w =
    (Return (mk_Response 200
               (Json [("status", JString "healthy");
                      ("model_loaded",
                       JBool (match model rt w with
                              | Some _ => true
                              | None => false
                              end))])), w).
Proof.
  unfold GET_health, route, health_check.
  rewrite (bind_Return rt _ _ w w (model rt w)) by reflexivity.
  by destruct (model rt w).
Qed.

(** C7, as the code has it: GET / answers 200 with the text of
    static/index.html when that file exists, can be read and holds
    well-formed UTF-8 (the text is the file's with its line endings
    translated), and 404 with the inline body
    "<h1>Error: index.html not found</h1>" when nothing exists at that
    path; every other failure of [open] or [read] -- bytes that are not
    UTF-8, no read permission, a directory -- is not caught by
    [except FileNotFoundError] and leaves the handler as the exception it
    is.  In particular an all-ASCII page is always served. *)
Theorem read_root_serves_or_404 w :
  fst (GET_root rt w) =
    match fs rt w !! "static/index.html" with
    | Some (RegularFile text) =>
        match Utf8.error text with
        | None => Return (mk_Response 200 (Html (universal_newlines text)))
        | Some err => Raise (Exc UnicodeDecodeError (Utf8.message err))
        end
    | None =>
        Return (mk_Response 404 (Html "<h1>Error: index.html not found</h1>"))
    | Some Unreadable =>
        Raise (Exc PermissionError
                 "[Errno 13] Permission denied: 'static/index.html'")
    | Some Directory =>
        Raise (Exc IsADirectoryError
                 "[Errno 21] Is a directory: 'static/index.html'")
    end
  /\ (forall text,
        fs rt w !! "static/index.html" = Some (RegularFile text) ->
        is_ascii text = true ->
        fst (GET_root rt w) =
          Return (mk_Response 200 (Html (universal_newlines text)))).
Proof.
  assert (Hrun : fst (GET_root rt w) =
    match fs rt w !! "static/index.html" with
    | Some (RegularFile text) =>
        match Utf8.error text with
        | None => Return (mk_Response 200 (Html (universal_newlines text)))
        | Some err => Raise (Exc UnicodeDecodeError (Utf8.message err))
        end
    | None =>
        Return (mk_Response 404 (Html "<h1>Error: index.html not found</h1>"))
    | Some Unreadable =>
        Raise (Exc PermissionError
                 "[Errno 13] Permission denied: 'static/index.html'")
    | Some Directory =>
        Raise (Exc IsADirectoryError
                 "[Errno 21] Is a directory: 'static/index.html'")
    end).
  { unfold GET_root, route, read_root, try_except, mbind, M_bind, open_read.
    destruct (fs rt w !! "static/index.html") as [[text| |]|]; try done.
    by destruct (Utf8.error text). }
  split; [exact Hrun|].
  intros text Hfs Hascii. rewrite Hrun, Hfs.
  by rewrite (utf8_error_ascii text Hascii).
Qed.

(** What the startup routine does to the variable. *)
Lemma load_model_on_startup_model w :
  match load_model_on_startup rt w with
  | (Return _, w') =>
      exists path m, keras_load_weights rt path = Return m
                     /\ model rt w' = Some m
  | (Raise _, w') => model rt w' = model rt w
  end.
Proof.
  unfold load_model_on_startup, try_except, mbind, M_bind, os_path_exists,
    print, raise, step, set_model, load_model, mret, M_ret.
  set (path := abspath rt _).
  destruct (bool_decide _); cbn [negb].
  - destruct (keras_load_weights rt path) as [m|e] eqn:Hload; cbn [model].
    + by exists path, m.
    + by destruct (isinstance e Exception).
  - reflexivity.
Qed.

(** C8: none of the handlers changes the module variable [model]: after
    [predict], [health_check] and [read_root], and after the routes built
    on them, it is what it was before; the startup routine is the one that
    assigns it, to the model it loaded, and leaves it alone when it fails. *)
Theorem handlers_keep_model file w :
  model rt (snd (predict rt file w)) = model rt w
  /\ model rt (snd (health_check rt w)) = model rt w
  /\ model rt (snd (read_root rt w)) = model rt w
  /\ model rt (snd (POST_predict rt file w)) = model rt w
  /\ model rt (snd (GET_health rt w)) = model rt w
  /\ model rt (snd (GET_root rt w)) = model rt w
  /\ match load_model_on_startup rt w with
     | (Return _, w') =>
         exists path m, keras_load_weights rt path = Return m
                        /\ model rt w' = Some m
     | (Raise _, w') => model rt w' = model rt w
     end.
Proof.
  split; [apply keeps_predict|].
  split; [apply keeps_health_check|].
  split; [apply keeps_read_root|].
  split; [apply keeps_route, keeps_predict|].
  split; [apply keeps_route, keeps_health_check|].
  split; [apply keeps_route, keeps_read_root|].
  apply load_model_on_startup_model.
Qed.

End Endpoints.

(** ** The prediction path *)

Lemma LABELS_lookup_lt (i : nat) :
  (i < 6)%nat -> exists name, LABELS !! Z.of_nat i = Some name.
Proof.
  intros Hi.
  do 6 (destruct i as [|i]; [eexists; reflexivity|]). lia.
Qed.

Lemma LABELS_lookup_None (key : Z) :
  ~ (0 <= key <= 5) -> LABELS !! key = None.
Proof.
  intros Hk. unfold LABELS.
  rewrite !lookup_insert_ne by lia. apply lookup_empty.
Qed.

(** One step of evaluation of a sequence of fallible expressions. *)
Ltac ostep := cbn [mbind outcome_bind obind].

Section Prediction.
Context (rt : Runtime).
Implicit Types (w : World rt) (file : UploadFile) (preds : ndarray float).

(** POST /predict in terms of what the [try] block did. *)
Lemma POST_predict_outcome file w w' (m : Model rt) (o : outcome Response) :
  model rt w = Some m ->
  try_body rt m file w = (o, w') ->
  POST_predict rt file w =
    match o with
    | Return r => (Return r, w')
    | Raise e =>
        if isinstance e Exception
        then (Return (mk_Response 400
                (Json [("detail",
                        JString ("Error processing image: " +:+ str e))])), w')
        else (Raise e, w')
    end.
Proof.
  intros Hm Hbody. unfold POST_predict, route.
  rewrite (predict_loaded rt file w m Hm). unfold try_except.
  rewrite Hbody. destruct o as [r|e]; [done|].
  destruct (isinstance e Exception) eqn:He; [done|].
  destruct e as [cls msg|sc d]; [done|]. discriminate He.
Qed.

Lemma try_body_infer file w w' (m : Model rt) preds :
  infer rt m file w = (Return preds, w') ->
  try_body rt m file w = (interpret rt preds, w').
Proof. intros Hi. unfold try_body. by rewrite (bind_Return rt _ _ _ _ _ Hi). Qed.

(** The first row of a well-formed 1xn array is its whole buffer. *)
Lemma nd_getitem0_single_row preds (n : nat) :
  nd_shape preds = [1; n]%nat -> nd_wf preds ->
  nd_getitem0 preds = Return (mk_ndarray [n] (nd_data preds)).
Proof.
  unfold nd_getitem0, nd_wf. intros -> Hwf. cbn [nd_size foldr] in *.
  rewrite take_ge by lia. done.
Qed.

(** [interpret] on a row of probabilities. *)
Lemma interpret_probabilities preds :
  nd_shape preds = [1; 6]%nat ->
  nd_wf preds ->
  Forall (fun p => F64.in_unit_interval p = true) (nd_data preds) ->
  exists (i : nat) (name : string) (conf : float) (bin : string) (angle : Z),
    is_first_max (nd_data preds) i
    /\ nd_data preds !! i = Some conf
    /\ LABELS !! Z.of_nat i = Some name
    /\ classify_recyclable (unicode_lower rt) (PyStr name) = Return (bin, angle)
    /\ interpret rt preds =
         Return (mk_Response 200
                   (Json [("predicted_class", JString name);
                          ("confidence", JFloat conf);
                          ("bin", JString bin);
                          ("servo_angle", JInt angle)])).
Proof.
  intros Hshape Hwf Hprob.
  assert (Hlen : length (nd_data preds) = 6%nat).
  { unfold nd_wf in Hwf. by rewrite Hshape in Hwf. }
  destruct (argmax_first_max (nd_data preds)) as (i & conf & Harg & Hmax & Hi & Hfirst).
  { intros Hnil. by rewrite Hnil in Hlen. }
  { eapply Forall_impl; [exact Hprob|]. intros p [H0 _]%andb_true_iff.
    by destruct (leb_not_nan _ _ H0). }
  destruct (LABELS_lookup_lt i) as [name Hname].
  { apply lookup_lt_Some in Hi. lia. }
  assert (Hfin : is_finite conf = true).
  { apply in_unit_interval_finite.
    eapply Forall_forall in Hprob; [exact Hprob|].
    by eapply list_elem_of_lookup_2. }
  pose proof (classify_recyclable_str (unicode_lower rt) name) as Hcls.
  destruct (if bool_decide (str_lower (unicode_lower rt) name ∈ RECYCLABLE_CATEGORIES)
            then ("Recyclable", 90) else ("Other", 0)) as [bin angle].
  exists i, name, conf, bin, angle.
  repeat split; try done.
  unfold interpret.
  rewrite (nd_getitem0_single_row preds 6 Hshape Hwf).
  ostep. unfold Np.argmax, Np.max, LABELS_getitem. cbn [nd_data].
  rewrite Harg, Hmax. ostep. rewrite Hname. ostep. rewrite Hcls. ostep.
  unfold JSONResponse. cbn [forallb snd json_compliant]. by rewrite Hfin.
Qed.

(** C3: when inference yields a 1x6 array of probabilities, POST /predict
    answers 200 with the label at position [i] and the value at [i] as
    confidence, where [i] is the position of the largest probability, the
    first one when several are largest; bin and angle are those of the bin
    classifier for that label. *)
Theorem predict_first_maximum file w w' (m : Model rt) preds :
  model rt w = Some m ->
  infer rt m file w = (Return preds, w') ->
  nd_shape preds = [1; 6]%nat ->
  nd_wf preds ->
  Forall (fun p => F64.in_unit_interval p = true) (nd_data preds) ->
  exists (i : nat) (name : string) (conf : float) (bin : string) (angle : Z),
    is_first_max (nd_data preds) i
    /\ nd_data preds !! i = Some conf
    /\ LABELS !! Z.of_nat i = Some name
    /\ classify_recyclable (unicode_lower rt) (PyStr name) = Return (bin, angle)
    /\ POST_predict rt file w =
         (Return (mk_Response 200
                    (Json [("predicted_class", JString name);
                           ("confidence", JFloat conf);
                           ("bin", JString bin);
                           ("servo_angle", JInt angle)])), w').
Proof.
  intros Hm Hinf Hshape Hwf Hprob.
  destruct (interpret_probabilities preds Hshape Hwf Hprob)
    as (i & name & conf & bin & angle & Hfirst & Hi & Hname & Hcls & Hint).
  exists i, name, conf, bin, angle. repeat split; try done.
  rewrite (POST_predict_outcome file w w' m (interpret rt preds) Hm).
  - by rewrite Hint.
  - by apply try_body_infer.
Qed.

(** C4, as the code has it: with the model loaded, an exception raised in
    the [try] block (reading, decoding, converting, normalizing, inference,
    label lookup, bin classification, building the response) that is an
    instance of [Exception] gives the 400 response whose detail is
    "Error processing image: " followed by [str(e)], whatever its class; an
    exception that is not an instance of [Exception] leaves the handler. *)
Theorem predict_collapses_Exception file w w' (m : Model rt) (e : exn) :
  model rt w = Some m ->
  try_body rt m file w = (Raise e, w') ->
  POST_predict rt file w =
    if isinstance e Exception
    then (Return (mk_Response 400
            (Json [("detail",
                    JString ("Error processing image: " +:+ str e))])), w')
    else (Raise e, w').
Proof. intros Hm Hbody. exact (POST_predict_outcome file w w' m (Raise e) Hm Hbody). Qed.

(** C10: when the position of the largest entry of the first row is not a
    key of [LABELS], that is not in 0..5, the lookup raises [KeyError],
    which the handler turns into the 400 response "Error processing
    image: " followed by the key. *)
Theorem predict_label_out_of_range file w w' (m : Model rt) preds (idx : Z) :
  model rt w = Some m ->
  infer rt m file w = (Return preds, w') ->
  (row ← nd_getitem0 preds; Np.argmax row) = Return idx ->
  ~ (0 <= idx <= 5) ->
  interpret rt preds = Raise (Exc KeyError (repr_int64 rt idx))
  /\ POST_predict rt file w =
       (Return (mk_Response 400
          (Json [("detail",
                  JString ("Error processing image: " +:+ repr_int64 rt idx))])),
        w').
Proof.
  intros Hm Hinf Harg Hout.
  assert (Hint : interpret rt preds = Raise (Exc KeyError (repr_int64 rt idx))).
  { unfold interpret.
    destruct (nd_getitem0 preds) as [row|] eqn:Hrow; [|done].
    cbn [mbind outcome_bind obind] in Harg.
    ostep. rewrite Harg. ostep.
    unfold Np.argmax in Harg. unfold Np.max.
    destruct (nd_data row) as [|x l]; [done|]. cbn [Np.max_list]. ostep.
    unfold LABELS_getitem. by rewrite (LABELS_lookup_None idx Hout). }
  split; [exact Hint|].
  rewrite (POST_predict_outcome file w w' m (interpret rt preds) Hm).
  - by rewrite Hint.
  - by apply try_body_infer.
Qed.

End Prediction.

(** ** The program on explicit inputs *)

Example predict_tied_is_metal :
  POST_predict Demo.rt_ok Demo.upload (Demo.loaded Demo.rt_ok tt []) =
    (Return (mk_Response 200
               (Json [("predicted_class", JString "metal");
                      ("confidence", JFloat 0.5);
                      ("bin", JString "Recyclable");
                      ("servo_angle", JInt 90)])),
     Demo.loaded Demo.rt_ok tt Demo.full_run).
Proof. reflexivity. Qed.

Example predict_tied_first_of_two :
  Np.argmax_list (nd_data Demo.tied) = Some 2%nat
  /\ Np.max_list (nd_data Demo.tied) = Some 0.5%float.
Proof. split; reflexivity. Qed.

Example health_before_and_after_startup :
  fst (GET_health Demo.rt_ok (Demo.not_loaded Demo.rt_ok)) =
    Return (mk_Response 200
              (Json [("status", JString "healthy");
                     ("model_loaded", JBool false)]))
  /\ fst (load_model_on_startup Demo.rt_ok (Demo.not_loaded Demo.rt_ok)) =
       Raise (Exc FileNotFoundError
                "Model file not found at: /srv/app/weights/modelnew.h5")
  /\ (let on_disk :=
        mk_World Demo.rt_ok None
          {[ "/srv/app/weights/modelnew.h5" := RegularFile "" ]} [] [] in
      let started := snd (load_model_on_startup Demo.rt_ok on_disk) in
      model Demo.rt_ok started = Some tt
      /\ fst (GET_health Demo.rt_ok started) =
           Return (mk_Response 200
                     (Json [("status", JString "healthy");
                            ("model_loaded", JBool true)]))).
Proof. repeat split; reflexivity. Qed.

Example read_root_present_and_missing :
  fst (GET_root Demo.rt_ok
         (mk_World Demo.rt_ok None
            {[ "static/index.html" := RegularFile "<html>bins</html>" ]} [] [])) =
    Return (mk_Response 200 (Html "<html>bins</html>"))
  /\ fst (GET_root Demo.rt_ok (Demo.not_loaded Demo.rt_ok)) =
       Return (mk_Response 404 (Html "<h1>Error: index.html not found</h1>")).
Proof. split; reflexivity. Qed.

(** ** Witnesses: the theorems applied to the concrete runtime *)


Lemma preprocess_keeps_mode_witness :
  Image_resize Demo.rt_ok Demo.grey2x2 (300, 300)%nat LANCZOS =
    Return Demo.grey_resized
  /\ exists arr,
       preprocess Demo.rt_ok Demo.grey2x2 = Return arr
       /\ nd_shape arr = [300; 300]%nat.
Proof.
  split; [reflexivity|].
  destruct (preprocess_keeps_mode Demo.rt_ok Demo.grey2x2 Demo.grey_resized)
    as (arr & Hpre & _ & HL & _); [reflexivity|].
  exists arr. split; [exact Hpre|]. apply HL. reflexivity.
Defined.

Lemma predict_first_maximum_witness :
  model Demo.rt_ok (Demo.loaded Demo.rt_ok tt []) = Some tt
  /\ infer Demo.rt_ok tt Demo.upload (Demo.loaded Demo.rt_ok tt []) =
       (Return Demo.tied, Demo.loaded Demo.rt_ok tt Demo.full_run)
  /\ nd_shape Demo.tied = [1; 6]%nat
  /\ nd_wf Demo.tied
  /\ Forall (fun p => F64.in_unit_interval p = true) (nd_data Demo.tied)
  /\ exists (i : nat) (name : string) (conf : float) (bin : string) (angle : Z),
       is_first_max (nd_data Demo.tied) i
       /\ nd_data Demo.tied !! i = Some conf
       /\ LABELS !! Z.of_nat i = Some name
       /\ classify_recyclable (unicode_lower Demo.rt_ok) (PyStr name) =
            Return (bin, angle)
       /\ POST_predict Demo.rt_ok Demo.upload (Demo.loaded Demo.rt_ok tt []) =
            (Return (mk_Response 200
                       (Json [("predicted_class", JString name);
                              ("confidence", JFloat conf);
                              ("bin", JString bin);
                              ("servo_angle", JInt angle)])),
             Demo.loaded Demo.rt_ok tt Demo.full_run).
Proof.
  assert (Hprob : Forall (fun p => F64.in_unit_interval p = true)
                         (nd_data Demo.tied))
    by (repeat constructor).
  split; [reflexivity|]. split; [reflexivity|]. split; [reflexivity|].
  split; [reflexivity|]. split; [exact Hprob|].
  apply (predict_first_maximum Demo.rt_ok Demo.upload
           (Demo.loaded Demo.rt_ok tt [])
           (Demo.loaded Demo.rt_ok tt Demo.full_run) tt Demo.tied);
    solve [reflexivity | exact Hprob].
Defined.

Lemma predict_collapses_Exception_witness :
  model Demo.rt_undecodable (Demo.loaded Demo.rt_undecodable tt []) = Some tt
  /\ try_body Demo.rt_undecodable tt Demo.upload
       (Demo.loaded Demo.rt_undecodable tt []) =
       (Raise (Exc UnidentifiedImageError "cannot identify image file"),
        Demo.loaded Demo.rt_undecodable tt [StepRead; StepDecode])
  /\ POST_predict Demo.rt_undecodable Demo.upload
       (Demo.loaded Demo.rt_undecodable tt []) =
       (Return (mk_Response 400
          (Json [("detail",
                  JString "Error processing image: cannot identify image file")])),
        Demo.loaded Demo.rt_undecodable tt [StepRead; StepDecode]).
Proof.
  split; [reflexivity|]. split; [reflexivity|].
  exact (predict_collapses_Exception Demo.rt_undecodable Demo.upload
           (Demo.loaded Demo.rt_undecodable tt [])
           (Demo.loaded Demo.rt_undecodable tt [StepRead; StepDecode]) tt
           (Exc UnidentifiedImageError "cannot identify image file")
           eq_refl eq_refl).
Defined.

Lemma predict_model_not_loaded_witness :
  model Demo.rt_ok (Demo.not_loaded Demo.rt_ok) = None
  /\ POST_predict Demo.rt_ok Demo.upload (Demo.not_loaded Demo.rt_ok) =
       (Return (mk_Response 500 (Json [("detail", JString "Model not loaded")])),
        Demo.not_loaded Demo.rt_ok).
Proof.
  split; [reflexivity|].
  apply (predict_model_not_loaded Demo.rt_ok Demo.upload
           (Demo.not_loaded Demo.rt_ok)). reflexivity.
Defined.

Lemma predict_label_out_of_range_witness :
  model Demo.rt_wide (Demo.loaded Demo.rt_wide tt []) = Some tt
  /\ infer Demo.rt_wide tt Demo.upload (Demo.loaded Demo.rt_wide tt []) =
       (Return Demo.too_wide, Demo.loaded Demo.rt_wide tt Demo.full_run)
  /\ (row ← nd_getitem0 Demo.too_wide; Np.argmax row) = Return 7
  /\ ~ (0 <= 7 <= 5)
  /\ POST_predict Demo.rt_wide Demo.upload (Demo.loaded Demo.rt_wide tt []) =
       (Return (mk_Response 400
          (Json [("detail", JString "Error processing image: 7")])),
        Demo.loaded Demo.rt_wide tt Demo.full_run).
Proof.
  split; [reflexivity|]. split; [reflexivity|]. split; [reflexivity|].
  split; [lia|].
  apply (predict_label_out_of_range Demo.rt_wide Demo.upload
           (Demo.loaded Demo.rt_wide tt [])
           (Demo.loaded Demo.rt_wide tt Demo.full_run) tt Demo.too_wide 7);
    solve [reflexivity | lia].
Defined.

(** ** The catch-all does not catch everything

    [asyncio.CancelledError] derives from [BaseException] only, so
    [except Exception] lets it through: with the model loaded and the
    pipeline raising it, POST /predict gives no response at all. *)
Lemma predict_lets_CancelledError_through :
  model Demo.rt_cancelled (Demo.loaded Demo.rt_cancelled tt []) = Some tt
  /\ try_body Demo.rt_cancelled tt Demo.upload
       (Demo.loaded Demo.rt_cancelled tt []) =
       (Raise (Exc CancelledError ""),
        Demo.loaded Demo.rt_cancelled tt [StepRead])
  /\ POST_predict Demo.rt_cancelled Demo.upload
       (Demo.loaded Demo.rt_cancelled tt []) =
       (Raise (Exc CancelledError ""),
        Demo.loaded Demo.rt_cancelled tt [StepRead])
  /\ ~ (exists (r : Response) w',
          POST_predict Demo.rt_cancelled Demo.upload
            (Demo.loaded Demo.rt_cancelled tt []) = (Return r, w')).
Proof.
  split; [reflexivity|]. split; [reflexivity|]. split; [reflexivity|].
  intros (r & w' & H). discriminate H.
Qed.

(** ** A page that exists is not always served

    The file exists, but it was saved in Latin-1: reading it as UTF-8
    raises [UnicodeDecodeError], which [except FileNotFoundError] does not
    catch, so GET / gives no response. *)
Lemma read_root_raises_on_non_utf8 :
  fs Demo.rt_ok latin1_world !! "static/index.html" =
    Some (RegularFile latin1_page)
  /\ fst (read_root Demo.rt_ok latin1_world) =
       Raise (Exc UnicodeDecodeError
                "'utf-8' codec can't decode byte 0xff in position 0: invalid start byte")
  /\ fst (GET_root Demo.rt_ok latin1_world) =
       Raise (Exc UnicodeDecodeError
                "'utf-8' codec can't decode byte 0xff in position 0: invalid start byte")
  /\ ~ (exists r : Response, fst (GET_root Demo.rt_ok latin1_world) = Return r).
Proof.
  split; [reflexivity|]. split; [reflexivity|]. split; [reflexivity|].
  intros (r & H). discriminate H.
Qed.

(** * Further properties of the code *)

(** ** The tables of utils.py *)

Lemma LABELS_key_cases (key : Z) :
  0 <= key <= 5 ->
  key = 0 \/ key = 1 \/ key = 2 \/ key = 3 \/ key = 4 \/ key = 5.
Proof. lia. Qed.

Lemma LABELS_lookup_Some (key : Z) :
  0 <= key <= 5 -> is_Some (LABELS !! key).
Proof.
  intros Hk.
  destruct (LABELS_key_cases key Hk) as [->|[->|[->|[->|[->| ->]]]]];
    eexists; reflexivity.
Qed.

(** X1: the keys of [LABELS] are exactly 0..5, six of them, no two keys
    carry the same name, and the subscript [LABELS[key]] raises [KeyError]
    exactly for the other integers. *)
Theorem LABELS_keys_and_names (rt : Runtime) (key : Z) :
  (is_Some (LABELS !! key) <-> 0 <= key <= 5)
  /\ size LABELS = 6%nat
  /\ (forall key' name,
        LABELS !! key = Some name -> LABELS !! key' = Some name -> key' = key)
  /\ (LABELS_getitem rt key = Raise (Exc KeyError (repr_int64 rt key))
      <-> ~ (0 <= key <= 5)).
Proof.
  assert (Hdom : forall k, is_Some (LABELS !! k) <-> 0 <= k <= 5).
  { intros k. split; [|apply LABELS_lookup_Some].
    intros Hs. destruct (decide (0 <= k <= 5)) as [|Hout]; [done|].
    rewrite (LABELS_lookup_None k Hout) in Hs. by destruct Hs. }
  split; [apply Hdom|]. split; [reflexivity|]. split.
  - intros key' name Hk Hk'.
    assert (H1 : 0 <= key <= 5) by (apply Hdom; eauto).
    assert (H2 : 0 <= key' <= 5) by (apply Hdom; eauto).
    destruct (LABELS_key_cases key H1) as [->|[->|[->|[->|[->| ->]]]]];
      destruct (LABELS_key_cases key' H2) as [->|[->|[->|[->|[->| ->]]]]];
      first [reflexivity | vm_compute in Hk, Hk'; congruence].
  - unfold LABELS_getitem. split.
    + intros Hr Hin. destruct (LABELS_lookup_Some key Hin) as [name Hn].
      by rewrite Hn in Hr.
    + intros Hout. by rewrite (LABELS_lookup_None key Hout).
Qed.

(** X2: every name in [LABELS] belongs to exactly one of
    [RECYCLABLE_CATEGORIES] and [OTHER_CATEGORIES], and
    [classify_recyclable] sends the names of keys 0..4 to
    [("Recyclable", 90)] and the name of key 5 to [("Other", 0)], whatever
    the interpreter's Unicode tables. *)
Theorem LABELS_partitioned (ul : string -> string) (key : Z) (name : string) :
  LABELS !! key = Some name ->
  (name ∈ RECYCLABLE_CATEGORIES <-> key <> 5)
  /\ (name ∈ OTHER_CATEGORIES <-> key = 5)
  /\ classify_recyclable ul (PyStr name) =
       Return (if decide (key = 5) then ("Other", 0) else ("Recyclable", 90)).
Proof.
  intros Hn.
  assert (Hk : 0 <= key <= 5).
  { destruct (decide (0 <= key <= 5)) as [|Hout]; [done|].
    by rewrite (LABELS_lookup_None key Hout) in Hn. }
  destruct (LABELS_key_cases key Hk) as [->|[->|[->|[->|[->| ->]]]]];
    vm_compute in Hn; injection Hn as <-;
    (split; [|split; [|reflexivity]]);
    match goal with
    | |- ?A <-> ?B =>
        apply (iff_trans (iff_sym (bool_decide_spec A)));
        apply (fun H => iff_trans H (bool_decide_spec B));
        vm_compute; tauto
    end.
Qed.

Lemma LABELS_partitioned_witness :
  LABELS !! 5 = Some "trash"
  /\ "trash" ∈ OTHER_CATEGORIES
  /\ classify_recyclable (fun s => s) (PyStr "trash") = Return ("Other", 0).
Proof.
  split; [reflexivity|].
  destruct (LABELS_partitioned (fun s => s) 5 "trash") as (_ & Ho & Hc);
    [reflexivity|].
  split; [by apply Ho|exact Hc].
Defined.

(** ** The classifier across letter case *)

Lemma ascii_tolower_toupper (c : ascii) :
  ascii_tolower (ascii_toupper c) = ascii_tolower c.
Proof. destruct c as [[] [] [] [] [] [] [] []]; reflexivity. Qed.

Lemma ascii_tolower_idem (c : ascii) :
  ascii_tolower (ascii_tolower c) = ascii_tolower c.
Proof. destruct c as [[] [] [] [] [] [] [] []]; reflexivity. Qed.

Lemma is_ascii_char_toupper (c : ascii) :
  is_ascii_char (ascii_toupper c) = is_ascii_char c.
Proof. destruct c as [[] [] [] [] [] [] [] []]; reflexivity. Qed.

Lemma is_ascii_char_tolower (c : ascii) :
  is_ascii_char (ascii_tolower c) = is_ascii_char c.
Proof. destruct c as [[] [] [] [] [] [] [] []]; reflexivity. Qed.

Lemma is_ascii_str_map (f : ascii -> ascii) (s : string) :
  (forall c, is_ascii_char (f c) = is_ascii_char c) ->
  is_ascii (str_map f s) = is_ascii s.
Proof.
  intros Hf. unfold is_ascii. induction s as [|c s IH]; [done|].
  cbn [str_map str_forall]. by rewrite Hf, IH.
Qed.

Lemma str_lower_case_blind (ul : string -> string) (s : string) :
  is_ascii s = true ->
  str_lower ul (str_map ascii_toupper s) = str_lower ul s
  /\ str_lower ul (str_lower ul s) = str_lower ul s.
Proof.
  intros Hs. unfold str_lower. rewrite Hs.
  rewrite (is_ascii_str_map _ _ is_ascii_char_toupper),
          (is_ascii_str_map _ _ is_ascii_char_tolower), Hs.
  clear Hs. split; induction s as [|c s IH]; cbn [str_map]; try done.
  - by rewrite ascii_tolower_toupper, IH.
  - by rewrite ascii_tolower_idem, IH.
Qed.

(** X4: on an all-ASCII string the classification ignores letter case:
    upper-casing the string, or lower-casing it beforehand, changes neither
    the bin nor the angle. *)
Theorem classify_recyclable_ignores_case (ul : string -> string) (s : string) :
  is_ascii s = true ->
  classify_recyclable ul (PyStr (str_map ascii_toupper s)) =
    classify_recyclable ul (PyStr s)
  /\ classify_recyclable ul (PyStr (str_lower ul s)) =
       classify_recyclable ul (PyStr s).
Proof.
  intros Hs. destruct (str_lower_case_blind ul s Hs) as [Hup Hlo].
  rewrite !classify_recyclable_str. by rewrite Hup, Hlo.
Qed.

Lemma classify_recyclable_ignores_case_witness :
  is_ascii "Glass" = true
  /\ classify_recyclable (fun s => s) (PyStr "GLASS") =
       classify_recyclable (fun s => s) (PyStr "Glass").
Proof.
  split; [reflexivity|].
  exact (proj1 (classify_recyclable_ignores_case (fun s => s) "Glass" eq_refl)).
Defined.

(** ** Normalization in every mode *)

(** X5: whatever the mode of the image, [preprocess] fails only when
    Pillow's resize fails, with that same exception, and otherwise returns a
    well-formed array whose first two axes are 300 and 300, holding
    300*300*bands elements, each an 8-bit sample divided by 255.0 and lying
    in [0, 1]. *)
Theorem preprocess_any_mode (rt : Runtime) (image : Image) :
  match preprocess rt image with
  | Return arr =>
      nd_wf arr
      /\ (exists rest, nd_shape arr = (300 :: 300 :: rest)%nat)
      /\ length (nd_data arr) = (300 * 300 * bands (im_mode image))%nat
      /\ Forall (fun x => F64.in_unit_interval x = true
                          /\ F64.is_uint8_over_255 x) (nd_data arr)
  | Raise e => Image_resize rt image (300, 300)%nat LANCZOS = Raise e
  end.
Proof.
  destruct (preprocess rt image) as [arr|e] eqn:Hpre.
  - pose proof (preprocess_range rt image arr Hpre) as Hrange.
    unfold preprocess in Hpre.
    destruct (Image_resize rt image _ _) as [resized|] eqn:Hres; [|done].
    destruct (Image_resize_inv rt _ _ _ _ Hres) as [Hmode Hsize].
    injection Hpre as <-.
    assert (Hwf : nd_wf (nd_map (fun b => (F64.of_uint8 b / 255)%float)
                                (np_array_uint8 resized)))
      by apply nd_map_wf, np_array_uint8_wf.
    assert (Hshape : nd_shape (nd_map (fun b => (F64.of_uint8 b / 255)%float)
                                      (np_array_uint8 resized)) =
              (if decide (bands (im_mode image) = 1)
               then [300; 300] else [300; 300; bands (im_mode image)])%nat).
    { cbn [nd_map nd_shape]. rewrite np_array_uint8_shape.
      unfold im_height, im_width. by rewrite Hsize, Hmode. }
    split; [exact Hwf|]. split; [|split; [|exact Hrange]].
    + rewrite Hshape. destruct (decide _); eauto.
    + unfold nd_wf in Hwf. rewrite Hwf, Hshape.
      destruct (decide _) as [Hb|Hb]; [rewrite Hb|]; cbn [nd_size foldr]; lia.
  - unfold preprocess in Hpre.
    destruct (Image_resize rt image _ _) as [resized|e']; [done|].
    by injection Hpre as ->.
Qed.

(** ** The arithmetic of [/ 255.0] *)

Lemma unit_of_sample_table :
  forallb (fun i =>
    forallb (fun j =>
      implb (i <? j)%nat
            (unit_of_sample (N.of_nat i) <? unit_of_sample (N.of_nat j))%float)
      (seq 0 256)
    && negb (unit_of_sample (N.of_nat i) <? unit_of_sample (N.of_nat i))%float
    && (unit_of_sample (N.of_nat i) * 255 =?
          PrimFloat.of_uint63 (Uint63.of_Z (Z.of_nat i)))%float)
    (seq 0 256) = true.
Proof. vm_compute. reflexivity. Qed.

Lemma byte_in_table (b : byte) :
  In (N.to_nat (Byte.to_N b)) (seq 0 256)
  /\ N.of_nat (N.to_nat (Byte.to_N b)) = Byte.to_N b.
Proof.
  split; [|apply N2Nat.id].
  apply in_seq. pose proof (Byte.to_N_bounded b). lia.
Qed.

(** X6: dividing by 255.0 keeps the order of the samples strictly: a
    smaller sample gives a strictly smaller value, so different samples stay
    different; 0 gives exactly 0.0 and 255 exactly 1.0; and multiplying the
    value by 255.0 gives the sample back. *)
Theorem normalization_keeps_order (b1 b2 : byte) :
  ((Byte.to_N b1 < Byte.to_N b2)%N ->
     (F64.of_uint8 b1 / 255 <? F64.of_uint8 b2 / 255)%float = true)
  /\ ((F64.of_uint8 b1 / 255)%float = (F64.of_uint8 b2 / 255)%float -> b1 = b2)
  /\ (F64.of_uint8 x00 / 255)%float = 0%float
  /\ (F64.of_uint8 xff / 255)%float = 1%float
  /\ (F64.of_uint8 b1 / 255 * 255 =? F64.of_uint8 b1)%float = true.
Proof.
  pose proof unit_of_sample_table as Htab.
  rewrite forallb_forall in Htab.
  assert (Hlt : forall a b : byte, (Byte.to_N a < Byte.to_N b)%N ->
            (F64.of_uint8 a / 255 <? F64.of_uint8 b / 255)%float = true).
  { intros a b Hab.
    destruct (byte_in_table a) as [Ha Ha'], (byte_in_table b) as [Hb Hb'].
    specialize (Htab _ Ha).
    apply andb_true_iff in Htab as [[Hrow _]%andb_true_iff _].
    rewrite forallb_forall in Hrow. specialize (Hrow _ Hb).
    rewrite Ha', Hb' in Hrow.
    replace (N.to_nat (Byte.to_N a) <? N.to_nat (Byte.to_N b))%nat with true
      in Hrow by (symmetry; apply Nat.ltb_lt; lia).
    exact Hrow. }
  assert (Hirr : forall a : byte,
            (F64.of_uint8 a / 255 <? F64.of_uint8 a / 255)%float = false).
  { intros a. destruct (byte_in_table a) as [Ha Ha'].
    specialize (Htab _ Ha).
    apply andb_true_iff in Htab as [[_ Hi]%andb_true_iff _].
    rewrite Ha' in Hi. by apply negb_true_iff in Hi. }
  split; [apply Hlt|]. split.
  - intros Heq.
    destruct (N.lt_trichotomy (Byte.to_N b1) (Byte.to_N b2)) as [H|[H|H]].
    + apply Hlt in H. rewrite Heq, Hirr in H. discriminate H.
    + apply (f_equal Byte.of_N) in H. rewrite !Byte.of_to_N in H.
      by injection H.
    + apply Hlt in H. rewrite Heq, Hirr in H. discriminate H.
  - split; [reflexivity|]. split; [reflexivity|].
    destruct (byte_in_table b1) as [Ha Ha'].
    specialize (Htab _ Ha).
    apply andb_true_iff in Htab as [_ Hback].
    rewrite Ha', N_nat_Z in Hback. exact Hback.
Qed.

Lemma normalization_keeps_order_witness :
  (Byte.to_N x40 < Byte.to_N x41)%N
  /\ (F64.of_uint8 x40 / 255 <? F64.of_uint8 x41 / 255)%float = true.
Proof.
  split; [reflexivity|].
  apply (proj1 (normalization_keeps_order x40 x41)). reflexivity.
Defined.

(** ** The pipeline, statement by statement *)

Section Pipeline.
Context (rt : Runtime).
Implicit Types (w : World rt) (file : UploadFile) (preds : ndarray float).

(** [infer] stops at the first statement that raises. *)
Lemma infer_run (m : Model rt) file w :
  infer rt m file w =
    match UploadFile_read rt file with
    | Raise e => (Raise e, advanced rt w [StepRead])
    | Return contents =>
        match Image_open rt contents with
        | Raise e => (Raise e, advanced rt w [StepRead; StepDecode])
        | Return image =>
            match to_rgb rt image with
            | Raise e =>
                (Raise e, advanced rt w [StepRead; StepDecode; StepConvert])
            | Return rgb =>
                match preprocess rt rgb with
                | Raise e =>
                    (Raise e,
                     advanced rt w
                       [StepRead; StepDecode; StepConvert; StepPreprocess])
                | Return arr =>
                    (Model_predict rt m (np_expand_dims0 arr),
                     advanced rt w pipeline)
                end
            end
        end
    end.
Proof.
  unfold infer, mbind, M_bind, step, advanced, pipeline.
  destruct (UploadFile_read rt file) as [contents|]; [|done].
  destruct (Image_open rt contents) as [image|]; cbn [model fs stdout steps];
    rewrite <- ?app_assoc; [|done].
  destruct (to_rgb rt image) as [rgb|]; cbn [model fs stdout steps];
    rewrite <- ?app_assoc; [|done].
  destruct (preprocess rt rgb) as [arr|]; cbn [model fs stdout steps];
    rewrite <- ?app_assoc; done.
Qed.

Lemma normalization_result (image : Image) (arr : ndarray float) :
  (to_rgb rt image ≫= preprocess rt) = Return arr ->
  nd_shape arr = [300; 300; 3]%nat
  /\ nd_wf arr
  /\ Forall (fun x => F64.in_unit_interval x = true) (nd_data arr).
Proof.
  destruct (to_rgb rt image) as [rgb|] eqn:Hrgb; [|done].
  cbn [mbind outcome_bind obind]. intros Hpre.
  destruct (to_rgb_inv rt _ _ Hrgb) as [Hmode _].
  pose proof (preprocess_range rt rgb arr Hpre) as Hrange.
  unfold preprocess in Hpre.
  destruct (Image_resize rt rgb _ _) as [resized|] eqn:Hres; [|done].
  destruct (Image_resize_inv rt _ _ _ _ Hres) as [Hmode' Hsize].
  injection Hpre as <-. split; [|split].
  - cbn [nd_map nd_shape]. rewrite np_array_uint8_shape.
    unfold im_height, im_width. by rewrite Hsize, Hmode', Hmode.
  - apply nd_map_wf, np_array_uint8_wf.
  - eapply Forall_impl; [exact Hrange|]. by intros x [? _].
Qed.

(** Membership of a statement in an explicit list of other statements. *)
Ltac absent :=
  let Hin := fresh "Hin" in
  intros Hin;
  repeat (apply elem_of_cons in Hin as [Hin|Hin]; [discriminate Hin|]);
  by apply elem_of_nil in Hin.

(** X7: the model is only ever called on a well-formed batch of shape
    1x300x300x3 whose values lie in [0, 1], after all five statements ran;
    otherwise one of the four statements before it raised, [infer] raises
    the same and [model.predict] is not among the executed statements. *)
Theorem model_sees_normalized_batch (m : Model rt) file w :
  (exists batch,
     infer rt m file w = (Model_predict rt m batch, advanced rt w pipeline)
     /\ nd_shape batch = [1; 300; 300; 3]%nat
     /\ nd_wf batch
     /\ Forall (fun x => F64.in_unit_interval x = true) (nd_data batch))
  \/ (exists e done,
        infer rt m file w = (Raise e, advanced rt w done)
        /\ StepPredict ∉ done).
Proof.
  rewrite infer_run.
  destruct (UploadFile_read rt file) as [contents|e].
  2: { right. exists e, [StepRead]. split; [done|]. absent. }
  destruct (Image_open rt contents) as [image|e].
  2: { right. exists e, [StepRead; StepDecode]. split; [done|]. absent. }
  destruct (to_rgb rt image) as [rgb|e] eqn:Hrgb.
  2: { right. exists e, [StepRead; StepDecode; StepConvert].
       split; [done|]. absent. }
  destruct (preprocess rt rgb) as [arr|e] eqn:Hpre.
  2: { right. exists e, [StepRead; StepDecode; StepConvert; StepPreprocess].
       split; [done|]. absent. }
  left. exists (np_expand_dims0 arr).
  destruct (normalization_result image arr) as (Hshape & Hwf & Hrange).
  { by rewrite Hrgb. }
  split; [done|]. split; [|split; [|exact Hrange]].
  - cbn [np_expand_dims0 nd_shape]. by rewrite Hshape.
  - unfold nd_wf, nd_size in *. cbn [np_expand_dims0 nd_shape nd_data foldr].
    rewrite Hwf. lia.
Qed.

Lemma snd_POST_predict file w :
  snd (POST_predict rt file w) =
    match model rt w with
    | None => w
    | Some m => snd (infer rt m file w)
    end.
Proof.
  destruct (model rt w) as [m|] eqn:Hm.
  - destruct (try_body rt m file w) as [o w'] eqn:Hbody.
    rewrite (POST_predict_outcome rt file w w' m o Hm Hbody).
    unfold try_body, mbind, M_bind, eval in Hbody.
    destruct (infer rt m file w) as [[preds|e] w1]; injection Hbody as <- <-.
    + by destruct (interpret rt preds) as [|e]; [|destruct (isinstance e _)].
    + by destruct (isinstance e Exception).
  - unfold POST_predict, route. by rewrite (predict_not_loaded rt file w Hm).
Qed.

(** X8: POST /predict touches neither the files nor the standard output nor
    [model]; of the world it only extends the record of executed statements,
    by a prefix of read, decode, convert, preprocess, predict in that order,
    empty when the model is not loaded. *)
Theorem predict_runs_a_prefix file w :
  exists k : nat,
    snd (POST_predict rt file w) = advanced rt w (take k pipeline)
    /\ (model rt w = None -> k = 0%nat).
Proof.
  rewrite snd_POST_predict.
  destruct (model rt w) as [m|] eqn:Hm.
  - rewrite infer_run.
    destruct (UploadFile_read rt file) as [contents|e];
      [|by exists 1%nat].
    destruct (Image_open rt contents) as [image|e]; [|by exists 2%nat].
    destruct (to_rgb rt image) as [rgb|e]; [|by exists 3%nat].
    destruct (preprocess rt rgb) as [arr|e]; [|by exists 4%nat].
    by exists 5%nat.
  - exists 0%nat. split; [|done].
    unfold advanced. cbn [take]. rewrite app_nil_r. by destruct w.
Qed.

(** X9: a payload that Pillow cannot decode is answered with 400 and the
    decoder's message, and nothing after the decoding is executed: no
    conversion, no normalization, no call of the model. *)
Theorem predict_rejects_undecodable file w (m : Model rt)
    (contents : list byte) (e : exn) :
  model rt w = Some m ->
  UploadFile_read rt file = Return contents ->
  Image_open rt contents = Raise e ->
  isinstance e Exception = true ->
  POST_predict rt file w =
    (Return (mk_Response 400
       (Json [("detail", JString ("Error processing image: " +:+ str e))])),
     advanced rt w [StepRead; StepDecode]).
Proof.
  intros Hm Hread Hopen He.
  rewrite (POST_predict_outcome rt file w
             (advanced rt w [StepRead; StepDecode]) m (Raise e) Hm).
  - by rewrite He.
  - unfold try_body, mbind, M_bind. by rewrite infer_run, Hread, Hopen.
Qed.

End Pipeline.

Lemma predict_rejects_undecodable_witness :
  model Demo.rt_undecodable (Demo.loaded Demo.rt_undecodable tt []) = Some tt
  /\ UploadFile_read Demo.rt_undecodable Demo.upload =
       Return (file Demo.upload)
  /\ Image_open Demo.rt_undecodable (file Demo.upload) =
       Raise (Exc UnidentifiedImageError "cannot identify image file")
  /\ POST_predict Demo.rt_undecodable Demo.upload
       (Demo.loaded Demo.rt_undecodable tt []) =
       (Return (mk_Response 400
          (Json [("detail",
                  JString "Error processing image: cannot identify image file")])),
        Demo.loaded Demo.rt_undecodable tt [StepRead; StepDecode]).
Proof.
  split; [reflexivity|]. split; [reflexivity|]. split; [reflexivity|].
  exact (predict_rejects_undecodable Demo.rt_undecodable Demo.upload
           (Demo.loaded Demo.rt_undecodable tt []) tt (file Demo.upload)
           (Exc UnidentifiedImageError "cannot identify image file")
           eq_refl eq_refl eq_refl eq_refl).
Defined.

(** ** From the prediction array to the response *)

Section Interpretation.
Context (rt : Runtime).
Implicit Types (w : World rt) (file : UploadFile) (preds : ndarray float).
Local Open Scope float_scope.
Local Open Scope list_scope.

Lemma argmax_scan_bound (l : list float) (i k : nat) (mp : float) :
  (k < i)%nat -> (Np.argmax_scan l i mp k < i + length l)%nat.
Proof.
  revert i k mp. induction l as [|x l IH]; intros i k mp Hk.
  - cbn [Np.argmax_scan length]. lia.
  - cbn [Np.argmax_scan length].
    destruct (negb (x <=? mp)); [destruct (is_nan x)|].
    + lia.
    + specialize (IH (S i) i x). lia.
    + specialize (IH (S i) k mp). lia.
Qed.

Lemma argmax_list_bound (l : list float) (i : nat) :
  Np.argmax_list l = Some i -> (i < length l)%nat.
Proof.
  destruct l as [|x l]; [done|]. cbn [Np.argmax_list length].
  intros [= <-]. destruct (is_nan x); [lia|].
  pose proof (argmax_scan_bound l 1 0 x). lia.
Qed.

Lemma max_list_is_Some (l : list float) (i : nat) :
  Np.argmax_list l = Some i -> is_Some (Np.max_list l).
Proof. destruct l; [done|]. by eexists. Qed.

(** [interpret], branch by branch. *)
Lemma interpret_run preds :
  interpret rt preds =
    match nd_getitem0 preds with
    | Raise e => Raise e
    | Return row =>
        match Np.argmax_list (nd_data row), Np.max_list (nd_data row) with
        | Some i, Some conf =>
            match LABELS !! Z.of_nat i with
            | None => Raise (Exc KeyError (repr_int64 rt (Z.of_nat i)))
            | Some name =>
                let bin :=
                  if bool_decide
                       (str_lower (unicode_lower rt) name ∈ RECYCLABLE_CATEGORIES)
                  then ("Recyclable", 90%Z) else ("Other", 0%Z) in
                if is_finite conf
                then Return (mk_Response 200
                       (Json [("predicted_class", JString name);
                              ("confidence", JFloat conf);
                              ("bin", JString (fst bin));
                              ("servo_angle", JInt (snd bin))]))
                else Raise (Exc ValueError
                       "Out of range float values are not JSON compliant")
            end
        | _, _ =>
            Raise (Exc ValueError "attempt to get argmax of an empty sequence")
        end
    end.
Proof.
  unfold interpret.
  destruct (nd_getitem0 preds) as [row|]; [|done]. ostep.
  unfold Np.argmax, Np.max.
  destruct (Np.argmax_list (nd_data row)) as [i|] eqn:Harg; [|done].
  destruct (max_list_is_Some _ _ Harg) as [conf ->]. ostep.
  unfold LABELS_getitem.
  destruct (LABELS !! Z.of_nat i) as [name|]; [|done]. ostep.
  rewrite classify_recyclable_str. ostep.
  unfold JSONResponse.
  destruct (bool_decide _); cbn [forallb snd fst json_compliant];
    rewrite andb_true_r; reflexivity.
Qed.

(** Everything [interpret] can raise is caught by [except Exception], and
    every response it builds has status 200. *)
Lemma interpret_outcome preds :
  match interpret rt preds with
  | Return r => status_code r = 200%Z
  | Raise e => isinstance e Exception = true
  end.
Proof.
  rewrite interpret_run. unfold nd_getitem0.
  destruct (nd_shape preds) as [|[|n] rest]; [done|done|].
  destruct (Np.argmax_list _) as [i|]; [|done].
  destruct (Np.max_list _) as [conf|]; [|done].
  destruct (LABELS !! Z.of_nat i) as [name|]; [|done].
  cbv zeta. by destruct (is_finite conf).
Qed.

(** X10: [np.argmax] always answers a position inside the row, so the label
    lookup can fail only on a row more than six wide: with at most six
    columns [interpret] never raises [KeyError]. *)
Theorem label_lookup_needs_wide_row preds (row : ndarray float) :
  nd_getitem0 preds = Return row ->
  (forall idx, Np.argmax row = Return idx ->
     (0 <= idx < Z.of_nat (length (nd_data row)))%Z)
  /\ ((length (nd_data row) <= 6)%nat ->
      forall msg, interpret rt preds <> Raise (Exc KeyError msg)).
Proof.
  intros Hrow. split.
  - intros idx. unfold Np.argmax.
    destruct (Np.argmax_list (nd_data row)) as [i|] eqn:Harg; [|done].
    intros [= <-]. apply argmax_list_bound in Harg. lia.
  - intros Hlen msg. rewrite interpret_run, Hrow.
    destruct (Np.argmax_list (nd_data row)) as [i|] eqn:Harg; [|done].
    destruct (Np.max_list (nd_data row)) as [conf|]; [|done].
    apply argmax_list_bound in Harg.
    destruct (LABELS_lookup_lt i) as [name ->]; [lia|].
    cbv zeta. by destruct (is_finite conf).
Qed.

Lemma is_nan_true (x : float) : is_nan x = true -> Prim2SF x = S754_nan.
Proof.
  intros Hx. destruct (Prim2SF x) eqn:Hsf; try done;
    (assert (Hn : is_nan x = false)
       by (apply is_nan_false; rewrite Hsf; discriminate));
    rewrite Hn in Hx; discriminate Hx.
Qed.

Lemma leb_nan_l (x y : float) : is_nan x = true -> (x <=? y) = false.
Proof. intros Hx%is_nan_true. by rewrite leb_spec, Hx. Qed.

Lemma foldl_maximum_nan (l : list float) (acc : float) :
  is_nan acc = true -> foldl Np.maximum acc l = acc.
Proof.
  intros Hacc. induction l as [|x l IH]; [done|].
  cbn [foldl]. unfold Np.maximum at 2. by rewrite Hacc, orb_true_r.
Qed.

(** [np.max] of a row holding a NaN is NaN. *)
Lemma max_list_nan (l : list float) (conf : float) :
  Exists (fun x => is_nan x = true) l ->
  Np.max_list l = Some conf -> is_nan conf = true.
Proof.
  destruct l as [|x0 l]; [done|]. cbn [Np.max_list]. intros Hex [= <-].
  destruct (is_nan x0) eqn:H0; [by rewrite foldl_maximum_nan|].
  apply Exists_cons in Hex as [Hx|Hex]; [congruence|].
  revert x0 H0. induction Hex as [x l Hx|x l Hex IH]; intros x0 H0.
  - cbn [foldl]. unfold Np.maximum at 2.
    rewrite (leb_nan_l x x0 Hx), H0. cbn [orb].
    by rewrite foldl_maximum_nan.
  - cbn [foldl]. destruct (is_nan (Np.maximum x0 x)) eqn:Hm.
    + by rewrite foldl_maximum_nan.
    + by apply IH.
Qed.

(** X11: a NaN anywhere in a 1x6 prediction row never reaches the client:
    [np.max] is then NaN, building the JSON response raises [ValueError],
    and POST /predict answers 400 "Out of range float values are not JSON
    compliant". *)
Theorem predict_refuses_NaN file w w' (m : Model rt) preds :
  model rt w = Some m ->
  infer rt m file w = (Return preds, w') ->
  nd_shape preds = [1; 6]%nat ->
  nd_wf preds ->
  Exists (fun x => is_nan x = true) (nd_data preds) ->
  POST_predict rt file w =
    (Return (mk_Response 400
       (Json [("detail",
               JString ("Error processing image: " +:+
                        "Out of range float values are not JSON compliant"))])),
     w').
Proof.
  intros Hm Hinf Hshape Hwf Hnan.
  assert (Hint : interpret rt preds =
            Raise (Exc ValueError
                     "Out of range float values are not JSON compliant")).
  { rewrite interpret_run, (nd_getitem0_single_row preds 6 Hshape Hwf).
    cbn [nd_data].
    assert (Hlen : length (nd_data preds) = 6%nat).
    { unfold nd_wf in Hwf. by rewrite Hshape in Hwf. }
    destruct (Np.argmax_list (nd_data preds)) as [i|] eqn:Harg.
    2: { destruct (nd_data preds); [done|discriminate Harg]. }
    destruct (max_list_is_Some _ _ Harg) as [conf Hmax]. rewrite Hmax.
    apply argmax_list_bound in Harg.
    destruct (LABELS_lookup_lt i) as [name ->]; [lia|].
    cbv zeta. unfold is_finite.
    by rewrite (max_list_nan _ _ Hnan Hmax). }
  rewrite (POST_predict_outcome rt file w w' m (interpret rt preds) Hm).
  - by rewrite Hint.
  - by apply try_body_infer.
Qed.

(** X12: an empty prediction is a client error too: an array with no row
    (or no axis) makes [predictions[0]] raise [IndexError], a first row with
    no element makes [np.argmax] raise [ValueError], and each is answered
    with 400 and that message. *)
Theorem predict_empty_prediction file w w' (m : Model rt) preds :
  model rt w = Some m ->
  infer rt m file w = (Return preds, w') ->
  nd_data preds = [] ->
  POST_predict rt file w =
    (Return (mk_Response 400
       (Json [("detail",
               JString ("Error processing image: " +:+
                 match nd_shape preds with
                 | [] =>
                     "too many indices for array: array is 0-dimensional, but 1 were indexed"
                 | O :: _ => "index 0 is out of bounds for axis 0 with size 0"
                 | S _ :: _ => "attempt to get argmax of an empty sequence"
                 end))])), w').
Proof.
  intros Hm Hinf Hdata.
  rewrite (POST_predict_outcome rt file w w' m (interpret rt preds) Hm);
    [|by apply try_body_infer].
  rewrite interpret_run. unfold nd_getitem0.
  destruct (nd_shape preds) as [|[|n] rest]; [done|done|].
  cbn [nd_data]. by rewrite Hdata, take_nil.
Qed.

(** X13: once inference has returned, POST /predict always answers, with
    status 200 or 400: nothing raised while reading the prediction leaves
    the handler. *)
Theorem predict_answers_after_inference file w w' (m : Model rt) preds :
  model rt w = Some m ->
  infer rt m file w = (Return preds, w') ->
  exists r,
    POST_predict rt file w = (Return r, w')
    /\ (status_code r = 200 \/ status_code r = 400)%Z.
Proof.
  intros Hm Hinf.
  rewrite (POST_predict_outcome rt file w w' m (interpret rt preds) Hm);
    [|by apply try_body_infer].
  pose proof (interpret_outcome preds) as Hout.
  destruct (interpret rt preds) as [r|e].
  - exists r. auto.
  - rewrite Hout. eexists. split; [reflexivity|]. by right.
Qed.



End Interpretation.

Lemma label_lookup_needs_wide_row_witness :
  nd_getitem0 Demo.tied = Return (mk_ndarray [6]%nat (nd_data Demo.tied))
  /\ (length (nd_data Demo.tied) <= 6)%nat
  /\ interpret Demo.rt_ok Demo.tied <> Raise (Exc KeyError "2").
Proof.
  split; [reflexivity|]. split; [apply Nat.le_refl|].
  apply (proj2 (label_lookup_needs_wide_row Demo.rt_ok Demo.tied
                  (mk_ndarray [6]%nat (nd_data Demo.tied)) eq_refl)).
  apply Nat.le_refl.
Defined.

Lemma predict_refuses_NaN_witness :
  model rt_nan (Demo.loaded rt_nan tt []) = Some tt
  /\ infer rt_nan tt Demo.upload (Demo.loaded rt_nan tt []) =
       (Return nan_row, Demo.loaded rt_nan tt Demo.full_run)
  /\ nd_shape nan_row = [1; 6]%nat
  /\ nd_wf nan_row
  /\ Exists (fun x => is_nan x = true) (nd_data nan_row)
  /\ POST_predict rt_nan Demo.upload (Demo.loaded rt_nan tt []) =
       (Return (mk_Response 400
          (Json [("detail",
                  JString "Error processing image: Out of range float values are not JSON compliant")])),
        Demo.loaded rt_nan tt Demo.full_run).
Proof.
  assert (Hnan : Exists (fun x => is_nan x = true) (nd_data nan_row)).
  { do 3 apply Exists_cons_tl. apply Exists_cons_hd. reflexivity. }
  split; [reflexivity|]. split; [reflexivity|]. split; [reflexivity|].
  split; [reflexivity|]. split; [exact Hnan|].
  exact (predict_refuses_NaN rt_nan Demo.upload (Demo.loaded rt_nan tt [])
           (Demo.loaded rt_nan tt Demo.full_run) tt nan_row
           eq_refl eq_refl eq_refl eq_refl Hnan).
Defined.

Lemma predict_empty_prediction_witness :
  model rt_no_rows (Demo.loaded rt_no_rows tt []) = Some tt
  /\ infer rt_no_rows tt Demo.upload (Demo.loaded rt_no_rows tt []) =
       (Return no_rows, Demo.loaded rt_no_rows tt Demo.full_run)
  /\ nd_data no_rows = []
  /\ POST_predict rt_no_rows Demo.upload (Demo.loaded rt_no_rows tt []) =
       (Return (mk_Response 400
          (Json [("detail",
                  JString "Error processing image: index 0 is out of bounds for axis 0 with size 0")])),
        Demo.loaded rt_no_rows tt Demo.full_run).
Proof.
  split; [reflexivity|]. split; [reflexivity|]. split; [reflexivity|].
  exact (predict_empty_prediction rt_no_rows Demo.upload
           (Demo.loaded rt_no_rows tt [])
           (Demo.loaded rt_no_rows tt Demo.full_run) tt no_rows
           eq_refl eq_refl eq_refl).
Defined.

Lemma predict_answers_after_inference_witness :
  model Demo.rt_wide (Demo.loaded Demo.rt_wide tt []) = Some tt
  /\ infer Demo.rt_wide tt Demo.upload (Demo.loaded Demo.rt_wide tt []) =
       (Return Demo.too_wide, Demo.loaded Demo.rt_wide tt Demo.full_run)
  /\ exists r,
       POST_predict Demo.rt_wide Demo.upload (Demo.loaded Demo.rt_wide tt []) =
         (Return r, Demo.loaded Demo.rt_wide tt Demo.full_run)
       /\ (status_code r = 200 \/ status_code r = 400)%Z.
Proof.
  split; [reflexivity|]. split; [reflexivity|].
  exact (predict_answers_after_inference Demo.rt_wide Demo.upload
           (Demo.loaded Demo.rt_wide tt [])
           (Demo.loaded Demo.rt_wide tt Demo.full_run) tt Demo.too_wide
           eq_refl eq_refl).
Defined.

(** ** Startup *)

Section Startup.
Context (rt : Runtime).
Implicit Types (w : World rt) (file : UploadFile).

(** The startup routine, branch by branch. *)
Lemma load_model_on_startup_run w :
  load_model_on_startup rt w =
    if bool_decide (is_Some (fs rt w !! weights_path rt)) then
      match keras_load_weights rt (weights_path rt) with
      | Return m =>
          (Return tt,
           mk_World rt (Some m) (fs rt w)
             (stdout rt w ++ ["Loading model from: " +:+ weights_path rt;
                              "Model loaded successfully!"])
             (steps rt w ++ [StepLoadModel (weights_path rt)]))
      | Raise e =>
          (Raise e,
           mk_World rt (model rt w) (fs rt w)
             (stdout rt w ++
                ("Loading model from: " +:+ weights_path rt) ::
                (if isinstance e Exception
                 then ["Error loading model: " +:+ str e] else []))
             (steps rt w ++ [StepLoadModel (weights_path rt)]))
      end
    else
      (Raise (Exc FileNotFoundError
                ("Model file not found at: " +:+ weights_path rt)),
       printed rt w ["Error loading model: Model file not found at: " +:+
                     weights_path rt]).
Proof.
  unfold load_model_on_startup, try_except, mbind, M_bind, os_path_exists,
    print, raise, step, set_model, load_model, mret, M_ret, printed.
  fold (weights_path rt).
  destruct (bool_decide _); cbn [negb]; [|done].
  destruct (keras_load_weights rt (weights_path rt)) as [m|e];
    cbn [model fs stdout steps].
  - by rewrite <- app_assoc.
  - destruct (isinstance e Exception); cbn [model fs stdout steps];
      by rewrite <- ?app_assoc.
Qed.

(** X15: without a file at the weights path the startup routine raises
    [FileNotFoundError] "Model file not found at: <path>" after printing the
    error line; the loader is never called and [model] keeps its value. *)
Theorem startup_without_weights w :
  fs rt w !! weights_path rt = None ->
  load_model_on_startup rt w =
    (Raise (Exc FileNotFoundError
              ("Model file not found at: " +:+ weights_path rt)),
     printed rt w ["Error loading model: Model file not found at: " +:+
                   weights_path rt]).
Proof.
  intros Hfs. rewrite load_model_on_startup_run, Hfs.
  rewrite bool_decide_eq_false_2; [done|]. by intros [? ?].
Qed.

Lemma POST_predict_loaded_not_500 file w w' (m : Model rt) (r : Response) :
  model rt w = Some m ->
  POST_predict rt file w = (Return r, w') -> status_code r <> 500.
Proof.
  intros Hm. destruct (try_body rt m file w) as [o w1] eqn:Hbody.
  rewrite (POST_predict_outcome rt file w w1 m o Hm Hbody).
  destruct o as [r'|e].
  - intros [= <- _]. unfold try_body, mbind, M_bind, eval in Hbody.
    destruct (infer rt m file w) as [[preds|e] w2]; [|done].
    injection Hbody as Hr _. pose proof (interpret_outcome rt preds) as Hout.
    rewrite Hr in Hout. by rewrite Hout.
  - destruct (isinstance e Exception); [|done]. by intros [= <- _].
Qed.

(** X16: with the weights file present and loadable, the startup routine
    returns, [model] holds the loaded model and the two progress lines are
    printed; from then on GET /health reports [model_loaded] true and
    POST /predict no longer answers 500. *)
Theorem startup_then_serving w (m : Model rt) :
  is_Some (fs rt w !! weights_path rt) ->
  keras_load_weights rt (weights_path rt) = Return m ->
  exists w',
    load_model_on_startup rt w = (Return tt, w')
    /\ model rt w' = Some m
    /\ stdout rt w' =
         (stdout rt w ++ ["Loading model from: " +:+ weights_path rt;
                          "Model loaded successfully!"])%list
    /\ fst (GET_health rt w') =
         Return (mk_Response 200
                   (Json [("status", JString "healthy");
                          ("model_loaded", JBool true)]))
    /\ (forall file r w'',
          POST_predict rt file w' = (Return r, w'') -> status_code r <> 500).
Proof.
  intros Hfs Hload. eexists. split.
  { rewrite load_model_on_startup_run, Hload.
    by rewrite bool_decide_eq_true_2. }
  split; [done|]. split; [done|]. split; [reflexivity|].
  intros file r w''. by apply POST_predict_loaded_not_500 with (m := m).
Qed.

(** X17: when the loader raises, the startup routine re-raises that very
    exception and [model] keeps its value; the error line with [str(e)] is
    printed exactly when the exception is an instance of [Exception]. *)
Theorem startup_reraises w (e : exn) :
  is_Some (fs rt w !! weights_path rt) ->
  keras_load_weights rt (weights_path rt) = Raise e ->
  exists w',
    load_model_on_startup rt w = (Raise e, w')
    /\ model rt w' = model rt w
    /\ stdout rt w' =
         (stdout rt w ++
            ("Loading model from: " +:+ weights_path rt) ::
            (if isinstance e Exception
             then ["Error loading model: " +:+ str e] else []))%list.
Proof.
  intros Hfs Hload. eexists. split.
  { rewrite load_model_on_startup_run, Hload.
    by rewrite bool_decide_eq_true_2. }
  done.
Qed.

End Startup.

Lemma startup_without_weights_witness :
  fs Demo.rt_ok (Demo.not_loaded Demo.rt_ok) !! weights_path Demo.rt_ok = None
  /\ load_model_on_startup Demo.rt_ok (Demo.not_loaded Demo.rt_ok) =
       (Raise (Exc FileNotFoundError
                 "Model file not found at: /srv/app/weights/modelnew.h5"),
        mk_World Demo.rt_ok None ∅
          ["Error loading model: Model file not found at: /srv/app/weights/modelnew.h5"]
          []).
Proof.
  split; [reflexivity|].
  exact (startup_without_weights Demo.rt_ok (Demo.not_loaded Demo.rt_ok) eq_refl).
Defined.

Lemma startup_then_serving_witness :
  is_Some (fs Demo.rt_ok
             (mk_World Demo.rt_ok None
                {[ "/srv/app/weights/modelnew.h5" := RegularFile "" ]} [] [])
           !! weights_path Demo.rt_ok)
  /\ keras_load_weights Demo.rt_ok (weights_path Demo.rt_ok) = Return tt
  /\ exists w',
       load_model_on_startup Demo.rt_ok
         (mk_World Demo.rt_ok None
            {[ "/srv/app/weights/modelnew.h5" := RegularFile "" ]} [] []) =
         (Return tt, w')
       /\ model Demo.rt_ok w' = Some tt.
Proof.
  assert (Hfs : is_Some (fs Demo.rt_ok
             (mk_World Demo.rt_ok None
                {[ "/srv/app/weights/modelnew.h5" := RegularFile "" ]} [] [])
           !! weights_path Demo.rt_ok)) by (eexists; reflexivity).
  split; [exact Hfs|]. split; [reflexivity|].
  destruct (startup_then_serving Demo.rt_ok
              (mk_World Demo.rt_ok None
                 {[ "/srv/app/weights/modelnew.h5" := RegularFile "" ]} [] [])
              tt Hfs eq_refl) as (w' & Hrun & Hmodel & _).
  exists w'. by split.
Defined.

Lemma startup_reraises_witness :
  is_Some (fs rt_bad_weights
             (mk_World rt_bad_weights None
                {[ "/srv/app/weights/modelnew.h5" := RegularFile "" ]} [] [])
           !! weights_path rt_bad_weights)
  /\ keras_load_weights rt_bad_weights (weights_path rt_bad_weights) =
       Raise (Exc OSError "Unable to open file (file signature not found)")
  /\ exists w',
       load_model_on_startup rt_bad_weights
         (mk_World rt_bad_weights None
            {[ "/srv/app/weights/modelnew.h5" := RegularFile "" ]} [] []) =
         (Raise (Exc OSError "Unable to open file (file signature not found)"),
          w')
       /\ model rt_bad_weights w' = None.
Proof.
  assert (Hfs : is_Some (fs rt_bad_weights
             (mk_World rt_bad_weights None
                {[ "/srv/app/weights/modelnew.h5" := RegularFile "" ]} [] [])
           !! weights_path rt_bad_weights)) by (eexists; reflexivity).
  split; [exact Hfs|]. split; [reflexivity|].
  destruct (startup_reraises rt_bad_weights
              (mk_World rt_bad_weights None
                 {[ "/srv/app/weights/modelnew.h5" := RegularFile "" ]} [] [])
              (Exc OSError "Unable to open file (file signature not found)")
              Hfs eq_refl) as (w' & Hrun & Hmodel & _).
  exists w'. by split.
Defined.

(** ** The network and the pipeline around it *)

(** X18: the architecture of [model_arc] fits the code around it: the
    array produced by the normalization has the shape declared as
    [input_shape]; the three 'same' convolutions keep the spatial size and
    the three poolings take 300 to 150, 75 and 37, so 37*37*32 = 43808
    values are flattened; and the output is six wide, the number of keys of
    [LABELS], so every position [np.argmax] can give has a label. *)
Theorem model_arc_fits_pipeline (rt : Runtime) (image : Image)
    (arr : ndarray float) :
  (to_rgb rt image ≫= preprocess rt) = Return arr ->
  Keras.declared_input_shape model_arc = Some (N.of_nat <$> nd_shape arr)
  /\ Keras.shapes_through (Keras.layers model_arc) (N.of_nat <$> nd_shape arr) =
       Some [ [300; 300; 32]; [150; 150; 32]; [150; 150; 64]; [75; 75; 64];
              [75; 75; 32]; [37; 37; 32]; [43808]; [64]; [64]; [32]; [32];
              [6] ]%N
  /\ Keras.output_shape model_arc = Some [N.of_nat (size LABELS)]
  /\ (forall i : nat, (i < 6)%nat -> is_Some (LABELS !! Z.of_nat i)).
Proof.
  intros Hnorm.
  destruct (normalization_result rt image arr Hnorm) as (-> & _ & _).
  split; [reflexivity|]. split; [vm_compute; reflexivity|].
  split; [vm_compute; reflexivity|].
  intros i Hi. destruct (LABELS_lookup_lt i Hi) as [name ->]. by eexists.
Qed.

Lemma model_arc_fits_pipeline_witness :
  (to_rgb Demo.rt_ok Demo.grey2x2 ≫= preprocess Demo.rt_ok) =
    Return (nd_map (fun b => (F64.of_uint8 b / 255)%float)
                   (np_array_uint8 Demo.rgb_resized))
  /\ Keras.output_shape model_arc = Some [6%N].
Proof.
  split; [reflexivity|].
  destruct (model_arc_fits_pipeline Demo.rt_ok Demo.grey2x2
              (nd_map (fun b => (F64.of_uint8 b / 255)%float)
                      (np_array_uint8 Demo.rgb_resized)) eq_refl)
    as (_ & _ & Hout & _).
  exact Hout.
Defined.

(** ** The conversion to RGB in [predict] *)

(** X19: the mode test of [predict] lets an RGB image through untouched,
    without calling Pillow's converter, so this statement cannot fail on an
    RGB upload; for any other mode the result, when there is one, has mode
    RGB and the size of the source, and a failure is the converter's own. *)
Theorem to_rgb_only_converts_other_modes (rt : Runtime) (image : Image) :
  (im_mode image = RGB -> to_rgb rt image = Return image)
  /\ (forall rgb, to_rgb rt image = Return rgb ->
        im_mode rgb = RGB /\ im_size rgb = im_size image)
  /\ (forall e, to_rgb rt image = Raise e ->
        im_mode image <> RGB /\ convert_core rt image RGB = Raise e).
Proof.
  split; [|split].
  - intros Hmode. unfold to_rgb. by destruct (decide _).
  - apply to_rgb_inv.
  - intros e. unfold to_rgb, Image_convert.
    destruct (decide _) as [Hne|]; [|done].
    destruct (convert_core rt image RGB); [done|].
    cbn [mbind outcome_bind obind]. by intros [= ->].
Qed.
